(** * Madshus products pipeline: collection and normalisation

    A shallow embedding of [madshus/utils/graphql.py] (the catalog client's
    [GraphQLClient.execute]) and of [madshus/collectors/product_collector.py]
    (the [ProductCollector] class), with the statements of the specification
    that concern them.

    Conventions of the embedding.
    - A decoded JSON document is a value of [json]; Python's [float] is left
      out (no function below computes with numbers).
    - A Python [str] is a [string], one character per code point; code
      points above 255 are outside the embedding.
    - A Python exception is a value of [exn]; a computation that may raise
      returns a [result].
    - Code that mutates the run's sets or the database session lives in the
      state-and-exception monad [M]: an exception leaves the state as it was
      at the point of the raise, as in Python.
    - Logging is left out, and so is the handling of Typer [OptionInfo]
      arguments: the arguments are the values themselves.

    The definitions come first: the program, module by module, then the
    notions that the statements use. The statements follow, the lemmas
    first and then, marked C1 to C10, the properties of the
    specification. *)

From Stdlib Require Import ZArith NArith List Ascii String Bool Lia DecimalString.
From stdpp Require Import base option gmap strings.
Import ListNotations.

Local Open Scope string_scope.
Local Open Scope Z_scope.

(** ** Python values and exceptions *)

Module Py.

#[local] Unset Elimination Schemes.
Inductive json : Type :=
| JNull
| JBool (b : bool)
| JInt (n : Z)
| JStr (s : string)
| JList (l : list json)
| JObj (kvs : list (string * json)).
#[local] Set Elimination Schemes.

(** The kinds of [requests.exceptions.RequestException] that [execute] can
    meet. *)
Inductive request_failure : Type :=
| ConnectionError
| HTTPError (status : Z)
| JSONDecodeError.

Inductive exn : Type :=
| AttributeError
| TypeError
| ValidationError
| RequestException (f : request_failure)
| GraphQLError (errors : json).

Inductive result (A : Type) : Type :=
| Ok (a : A)
| Raise (e : exn).
Arguments Ok {A} a.
Arguments Raise {A} e.

Definition rbind {A B} (r : result A) (k : A -> result B) : result B :=
  match r with
  | Ok a => k a
  | Raise e => Raise e
  end.

(** [bool(x)] *)
Definition truthy (x : json) : bool :=
  match x with
  | JNull => false
  | JBool b => b
  | JInt n => negb (n =? 0)
  | JStr s => negb (String.eqb s "")
  | JList l => match l with [] => false | _ => true end
  | JObj kvs => match kvs with [] => false | _ => true end
  end.

(** A decoded object keeps one value per key; in the association list the
    first binding of a key is the one that counts. *)
Fixpoint lookup_key (k : string) (kvs : list (string * json)) : option json :=
  match kvs with
  | [] => None
  | (k', v) :: rest => if String.eqb k k' then Some v else lookup_key k rest
  end.

(** [d.get(k, default)]: only a dict has the method. *)
Definition dict_get (d : json) (k : string) (default : json) : result json :=
  match d with
  | JObj kvs => Ok (match lookup_key k kvs with Some v => v | None => default end)
  | _ => Raise AttributeError
  end.

(** [d.items()], in insertion order, one pair per key. *)
Fixpoint items_of (kvs : list (string * json)) : list (string * json) :=
  match kvs with
  | [] => []
  | (k, v) :: rest =>
      (k, v) :: List.filter (fun kv => negb (String.eqb k (fst kv))) (items_of rest)
  end.

Definition dict_items (d : json) : result (list (string * json)) :=
  match d with
  | JObj kvs => Ok (items_of kvs)
  | _ => Raise AttributeError
  end.

Fixpoint chars (s : string) : list json :=
  match s with
  | EmptyString => []
  | String c r => JStr (String c EmptyString) :: chars r
  end.

(** [for x in v]: a list yields its elements, a dict its keys, a string its
    characters; [None], numbers and booleans are not iterable. [len(v)] is
    defined on the same values. *)
Definition py_iter (v : json) : result (list json) :=
  match v with
  | JList l => Ok l
  | JObj kvs => Ok (map (fun kv => JStr (fst kv)) (items_of kvs))
  | JStr s => Ok (chars s)
  | _ => Raise TypeError
  end.

Definition py_len (v : json) : result nat :=
  rbind (py_iter v) (fun l => Ok (length l)).

(** Only scalars are hashable, so only they can be members of a set. *)
Definition hashable (v : json) : bool :=
  match v with
  | JList _ | JObj _ => false
  | _ => true
  end.

(** [a == b] on hashable values: [True == 1] and [False == 0]. *)
Definition eqb (a b : json) : bool :=
  match a, b with
  | JNull, JNull => true
  | JBool x, JBool y => Bool.eqb x y
  | JBool x, JInt y | JInt y, JBool x => (if x then 1 else 0) =? y
  | JInt x, JInt y => x =? y
  | JStr x, JStr y => String.eqb x y
  | _, _ => false
  end.

(** [x in s] for a set [s], kept as the list of its members in insertion
    order: hashing [x] comes first. *)
Definition set_mem (x : json) (s : list json) : result bool :=
  if hashable x then Ok (existsb (eqb x) s) else Raise TypeError.

End Py.
Export Py.

(** ** HTML stripping: [ProductCollector._clean_html] *)

Module Html.

Definition LF : ascii := "010"%char.

(** What [\s] matches in a [str] pattern and what [str.strip()] removes
    (the code points below 256 for which [str.isspace()] holds). *)
Definition is_space (c : ascii) : bool :=
  let n := N_of_ascii c in
  (((9 <=? n) && (n <=? 13)) || ((28 <=? n) && (n <=? 32))
   || (n =? 133) || (n =? 160))%N.

(** [tag_len r], for the text [r] that follows a ["<"]: the number of
    characters of [r] that the pattern [<.*?>] consumes, the shortest run of
    [.] up to the nearest [">"]. [.] does not match a line feed (the pattern
    is compiled without [re.DOTALL]), so there is no match when a line feed
    comes before that [">"]. *)
Fixpoint tag_len (r : string) : option nat :=
  match r with
  | EmptyString => None
  | String c r' =>
      if Ascii.eqb c ">" then Some 1%nat
      else if Ascii.eqb c LF then None
      else option_map S (tag_len r')
  end.

(** [re.sub("<.*?>", "", s)], scanning left to right; [skip] counts the
    characters of the current match that are still to be dropped. *)
Fixpoint sub_tags (skip : nat) (s : string) : string :=
  match s with
  | EmptyString => EmptyString
  | String c r =>
      match skip with
      | S k => sub_tags k r
      | O =>
          if Ascii.eqb c "<" then
            match tag_len r with
            | Some n => sub_tags n r
            | None => String c (sub_tags 0 r)
            end
          else String c (sub_tags 0 r)
      end
  end.

(** [re.sub(r"\s+", " ", s)]; [in_run] tells that the previous character
    was whitespace, already replaced. *)
Fixpoint sub_spaces (in_run : bool) (s : string) : string :=
  match s with
  | EmptyString => EmptyString
  | String c r =>
      if is_space c then
        if in_run then sub_spaces true r else String " " (sub_spaces true r)
      else String c (sub_spaces false r)
  end.

Fixpoint lstrip (s : string) : string :=
  match s with
  | EmptyString => EmptyString
  | String c r => if is_space c then lstrip r else s
  end.

Fixpoint rstrip (s : string) : string :=
  match s with
  | EmptyString => EmptyString
  | String c r =>
      match rstrip r with
      | EmptyString => if is_space c then EmptyString else String c EmptyString
      | r' => String c r'
      end
  end.

(** [s.strip()] *)
Definition strip (s : string) : string := rstrip (lstrip s).

Definition clean_str (s : string) : string :=
  strip (sub_spaces false (sub_tags 0 s)).

(** [_clean_html(html)]: a falsy argument gives [""]; [re.sub] raises
    [TypeError] on a truthy argument that is not a string. *)
Definition _clean_html (html : json) : result string :=
  if negb (truthy html) then Ok ""
  else match html with
       | JStr s => Ok (clean_str s)
       | _ => Raise TypeError
       end.

End Html.
Export Html.

(** ** The catalog client: [madshus/utils/graphql.py] *)

Module GraphQL.

(** What [requests.post] meets: no response at all (connection refused,
    timeout), or a response with a status code and a body that decodes as
    JSON or does not. [response.json()] on a body that does not decode
    raises [requests.exceptions.JSONDecodeError], a [RequestException]
    (requests 2.27 and later). *)
Inductive http_outcome : Type :=
| NoResponse
| Response (status : Z) (body : option json).

(** [needle in hay] on strings. *)
Fixpoint contains (needle hay : string) : bool :=
  String.prefix needle hay
  || match hay with
     | EmptyString => false
     | String _ r => contains needle r
     end.

(** ["errors" in data] *)
Definition has_errors (data : json) : result bool :=
  match data with
  | JObj kvs => Ok (match lookup_key "errors" kvs with Some _ => true | None => false end)
  | JList l => Ok (existsb (Py.eqb (JStr "errors")) l)
  | JStr s => Ok (contains "errors" s)
  | _ => Raise TypeError
  end.

(** [data["errors"]], evaluated once ["errors" in data] holds. *)
Definition subscript_errors (data : json) : result json :=
  match data with
  | JObj kvs =>
      match lookup_key "errors" kvs with
      | Some e => Ok e
      | None => Raise TypeError
      end
  | _ => Raise TypeError
  end.

Section Client.

(** The request document: [variables] and [operationName] are set when
    they are truthy. *)
Definition request_payload (query : string) (variables operation_name : json)
  : json :=
  JObj ([("query", JStr query)]
        ++ (if truthy variables then [("variables", variables)] else [])
        ++ (if truthy operation_name
            then [("operationName", operation_name)] else []))%list.

(** [requests.post(self.url, json=payload, headers=self.headers)] *)
Variable post : json -> http_outcome.

(** [GraphQLClient.execute]. The handler of
    [requests.exceptions.RequestException] logs and re-raises, and lets
    every other exception through. *)
Definition execute (query : string) (variables operation_name : json)
  : result json :=
  match post (request_payload query variables operation_name) with
  | NoResponse => Raise (RequestException ConnectionError)
  | Response status body =>
      (* response.raise_for_status() *)
      if (400 <=? status) && (status <? 600)
      then Raise (RequestException (HTTPError status))
      else
        (* data = response.json() *)
        match body with
        | None => Raise (RequestException JSONDecodeError)
        | Some data =>
            rbind (has_errors data) (fun found =>
            if found : bool
            then rbind (subscript_errors data) (fun errors =>
                 Raise (GraphQLError errors))
            else Ok data)
        end
  end.

(** The two query documents; the client sends them as they are. *)
Variables GET_PAGINATED_PRODUCT_GRID_QUERY GET_PRODUCT_QUERY : string.

Definition get_paginated_products (query_string bc_region : string)
  : result json :=
  execute GET_PAGINATED_PRODUCT_GRID_QUERY
    (JObj [("queryString", JStr query_string); ("bcRegion", JStr bc_region)])
    (JStr "GetPaginatedProductGrid").

(** The collector passes whatever the grid gave as [url]. *)
Definition get_product (url : json) (locale bc_region : string)
  : result json :=
  execute GET_PRODUCT_QUERY
    (JObj [("url", url); ("locale", JStr locale); ("bcRegion", JStr bc_region)])
    (JStr "GetProduct").

End Client.

End GraphQL.

(** ** State and exceptions *)

Module Monad.

(** A computation over a mutable state [S] that returns or raises; the
    state it leaves is the one at the return or at the raise. *)
Definition M (S A : Type) : Type := S -> result A * S.

Definition ret {S A} (a : A) : M S A := fun s => (Ok a, s).

Definition bind {S A B} (m : M S A) (k : A -> M S B) : M S B :=
  fun s =>
    match m s with
    | (Ok a, s') => k a s'
    | (Raise e, s') => (Raise e, s')
    end.

Definition lift {S A} (r : result A) : M S A := fun s => (r, s).

Definition gets {S A} (f : S -> A) : M S A := fun s => (Ok (f s), s).

Definition modify {S} (f : S -> S) : M S unit := fun s => (Ok tt, f s).

(** [try: m  except Exception as e: handler] *)
Definition try_except {S A} (m : M S A) (handler : exn -> M S A) : M S A :=
  fun s =>
    match m s with
    | (Ok a, s') => (Ok a, s')
    | (Raise e, s') => handler e s'
    end.

(** [for x in l: body x], without [break]. *)
Fixpoint for_each {S A} (l : list A) (body : A -> M S unit) : M S unit :=
  match l with
  | [] => ret tt
  | x :: rest => bind (body x) (fun _ => for_each rest body)
  end.

End Monad.
Export Monad.

Notation "x <- m ;; k" := (bind m (fun x => k))
  (at level 100, m at next level, right associativity).
Notation "m ;;; k" := (bind m (fun _ => k))
  (at level 100, right associativity).

(** ** Validated records: [madshus/schemas/product.py] *)

(** The schemas are pydantic models ([from_attributes] in [ProductSchema]
    is the spelling of pydantic 2): a field declared [str] accepts a string
    and nothing else that JSON can hold, and the constructor raises
    [ValidationError] otherwise. *)
Definition as_str (v : json) : option string :=
  match v with
  | JStr s => Some s
  | _ => None
  end.

Fixpoint as_str_list (l : list json) : option (list string) :=
  match l with
  | [] => Some []
  | v :: rest =>
      match as_str v, as_str_list rest with
      | Some s, Some ss => Some (s :: ss)
      | _, _ => None
      end
  end.

Definition validated {A} (o : option A) : result A :=
  match o with
  | Some a => Ok a
  | None => Raise ValidationError
  end.

Module ProductSpecSchema.
(** [Optional[Union[str, List[str]]]] *)
Inductive value_t : Type :=
| VNone
| VStr (s : string)
| VList (l : list string).
Record t : Type := mk { spec_id : string; title : string; value : value_t }.

Definition validate_value (v : json) : option value_t :=
  match v with
  | JNull => Some VNone
  | JStr s => Some (VStr s)
  | JList l => option_map VList (as_str_list l)
  | _ => None
  end.

Definition make (spec_id title value : json) : result t :=
  validated
    match as_str spec_id, as_str title, validate_value value with
    | Some i, Some t, Some v => Some (mk i t v)
    | _, _, _ => None
    end.
End ProductSpecSchema.

Module ProductTechnologySchema.
Record t : Type := mk { title : string; content : string }.

(** [content] is always given a string, the result of [_clean_html]. *)
Definition make (title : json) (content : string) : result t :=
  validated (option_map (fun t => mk t content) (as_str title)).
End ProductTechnologySchema.

Module ProductFeatureSchema.
Record t : Type := mk { group_title : option string; content : string }.

Definition validate_group_title (v : json) : option (option string) :=
  match v with
  | JNull => Some None
  | JStr s => Some (Some s)
  | _ => None
  end.

Definition make (group_title content : json) : result t :=
  validated
    match validate_group_title group_title, as_str content with
    | Some g, Some c => Some (mk g c)
    | _, _ => None
    end.
End ProductFeatureSchema.

(** ** Rows: [madshus/models/product.py]

    A row holds what the collector assigned to it: the attributes the
    collector takes from the payload unchecked are [json] values. The
    autoincrement [id] of a child row is never read and is left out. *)

Module Product.
Record t : Type := mk {
  uid : string;
  title : json;
  display_title : json;
  url : json;
  description : json;
  tagline : json }.

Definition set_title (p : t) (v : json) : t :=
  mk (uid p) v (display_title p) (url p) (description p) (tagline p).
Definition set_display_title (p : t) (v : json) : t :=
  mk (uid p) (title p) v (url p) (description p) (tagline p).
Definition set_url (p : t) (v : json) : t :=
  mk (uid p) (title p) (display_title p) v (description p) (tagline p).
Definition set_description (p : t) (v : json) : t :=
  mk (uid p) (title p) (display_title p) (url p) v (tagline p).
Definition set_tagline (p : t) (v : json) : t :=
  mk (uid p) (title p) (display_title p) (url p) (description p) v.
End Product.

Module ProductSpec.
Record t : Type := mk {
  product_uid : string;
  spec_id : string;
  title : string;
  value : option string }.
End ProductSpec.

Module ProductPrice.
Record t : Type := mk { product_uid : string; region : string; price : json }.
End ProductPrice.

Module ProductTechnology.
Record t : Type := mk { product_uid : string; title : string; content : string }.
End ProductTechnology.

Module ProductFeature.
Record t : Type := mk {
  product_uid : string;
  group_title : option string;
  content : string }.
End ProductFeature.

(** ** The database session

    The collector receives one SQLAlchemy [Session], made with
    [autocommit=False, autoflush=False] ([madshus/database/session.py]), and
    uses it for the whole run. The session is modelled by three stores:
    - [committed]: what the database holds durably;
    - [tx]: what the open transaction sees, that is [committed] changed by
      the statements already sent (bulk deletes, flushed rows);
    - [unflushed]: the unit of work, that is the objects given to [add] and
      the in-memory attributes of modified products, not yet sent.
    [flush] sends the unit of work into [tx]; [commit] flushes and makes
    [tx] durable. NOT NULL and UNIQUE constraints, and the driver's
    conversion of values, are outside the model. *)

Module Db.

Record DB : Type := mkDB {
  products : gmap string Product.t;
  product_specs : list ProductSpec.t;
  product_prices : list ProductPrice.t;
  product_technologies : list ProductTechnology.t;
  product_features : list ProductFeature.t }.

Definition empty_db : DB := mkDB ∅ [] [] [] [].

Record Session : Type := mkSession { committed : DB; tx : DB; unflushed : DB }.

Definition set_unflushed (f : DB -> DB) (s : Session) : Session :=
  mkSession (committed s) (tx s) (f (unflushed s)).

Definition set_tx (f : DB -> DB) (s : Session) : Session :=
  mkSession (committed s) (f (tx s)) (unflushed s).

Definition other_uid {A} (product_uid : A -> string) (uid : string) (r : A) : bool :=
  negb (String.eqb (product_uid r) uid).

(** [db.query(Product).filter(Product.uid == uid).first()]: the row is
    looked up in the transaction (nothing is flushed first); a product that
    the session already holds modified comes back as that same object. *)
Definition query_product (uid : string) : M Session (option Product.t) :=
  gets (fun s =>
    match products (tx s) !! uid with
    | Some row =>
        Some (match products (unflushed s) !! uid with
              | Some obj => obj
              | None => row
              end)
    | None => None
    end).

(** An attribute assignment on a loaded product, and [db.add(product)]:
    the object [p] is what the session now holds under its uid. *)
Definition hold_product (p : Product.t) : M Session unit :=
  modify (set_unflushed (fun d =>
    mkDB (<[Product.uid p := p]> (products d)) (product_specs d)
         (product_prices d) (product_technologies d) (product_features d))).

(** [db.add(row)] for the four child tables. *)
Definition add_spec (r : ProductSpec.t) : M Session unit :=
  modify (set_unflushed (fun d =>
    mkDB (products d) (product_specs d ++ [r])%list (product_prices d)
         (product_technologies d) (product_features d))).

Definition add_price (r : ProductPrice.t) : M Session unit :=
  modify (set_unflushed (fun d =>
    mkDB (products d) (product_specs d) (product_prices d ++ [r])%list
         (product_technologies d) (product_features d))).

Definition add_technology (r : ProductTechnology.t) : M Session unit :=
  modify (set_unflushed (fun d =>
    mkDB (products d) (product_specs d) (product_prices d)
         (product_technologies d ++ [r])%list (product_features d))).

Definition add_feature (r : ProductFeature.t) : M Session unit :=
  modify (set_unflushed (fun d =>
    mkDB (products d) (product_specs d) (product_prices d)
         (product_technologies d) (product_features d ++ [r])%list)).

(** [db.query(T).filter(T.product_uid == uid).delete()]: a DELETE
    statement, sent at once into the transaction. *)
Definition delete_specs (uid : string) : M Session unit :=
  modify (set_tx (fun d =>
    mkDB (products d)
         (List.filter (other_uid ProductSpec.product_uid uid) (product_specs d))
         (product_prices d) (product_technologies d) (product_features d))).

Definition delete_prices (uid : string) : M Session unit :=
  modify (set_tx (fun d =>
    mkDB (products d) (product_specs d)
         (List.filter (other_uid ProductPrice.product_uid uid) (product_prices d))
         (product_technologies d) (product_features d))).

Definition delete_technologies (uid : string) : M Session unit :=
  modify (set_tx (fun d =>
    mkDB (products d) (product_specs d) (product_prices d)
         (List.filter (other_uid ProductTechnology.product_uid uid)
                 (product_technologies d))
         (product_features d))).

Definition delete_features (uid : string) : M Session unit :=
  modify (set_tx (fun d =>
    mkDB (products d) (product_specs d) (product_prices d)
         (product_technologies d)
         (List.filter (other_uid ProductFeature.product_uid uid)
                 (product_features d)))).

(** What the transaction sees once the unit of work [u] is sent. *)
Definition written (u d : DB) : DB :=
  mkDB (products u ∪ products d)
       (product_specs d ++ product_specs u)%list
       (product_prices d ++ product_prices u)%list
       (product_technologies d ++ product_technologies u)%list
       (product_features d ++ product_features u)%list.

(** [db.flush()] *)
Definition flush : M Session unit :=
  modify (fun s =>
    mkSession (committed s) (written (unflushed s) (tx s)) empty_db).

(** [db.commit()] *)
Definition commit : M Session unit :=
  flush ;;;
  modify (fun s => mkSession (tx s) (tx s) (unflushed s)).

(** A session on which nothing is pending. *)
Definition clean (d : DB) : Session := mkSession d d empty_db.

End Db.
Export Db.

(** ** Field extraction: the pure part of [ProductCollector] *)

Module Normalizer.

(** A loop that appends to a local list what [f] keeps of each element and
    stops at the first exception. *)
Fixpoint gather {A B} (f : A -> result (list B)) (l : list A) : result (list B) :=
  match l with
  | [] => Ok []
  | x :: rest =>
      rbind (f x) (fun kept =>
      rbind (gather f rest) (fun more => Ok (kept ++ more)%list))
  end.

Definition spec_entry (spec : json) : result (list ProductSpecSchema.t) :=
  rbind (dict_get spec "id" (JStr "")) (fun spec_id =>
  rbind (dict_get spec "title" (JStr "")) (fun title =>
  rbind (dict_get spec "value" (JStr "")) (fun value =>
  if truthy spec_id && truthy title
  then rbind (ProductSpecSchema.make spec_id title value) (fun s => Ok [s])
  else Ok []))).

Definition _extract_specs (product_data : json)
  : result (list ProductSpecSchema.t) :=
  rbind (dict_get product_data "updated_product_specs" (JList []))
    (fun updated_product_specs =>
  rbind (py_iter updated_product_specs) (gather spec_entry)).

(** The returned dict, as its items in order. *)
Definition _extract_prices (product_data : json)
  : result (list (string * json)) :=
  rbind (dict_get product_data "prices" (JObj [])) dict_items.

Definition technology_entry (tech : json)
  : result (list ProductTechnologySchema.t) :=
  rbind (dict_get tech "title" (JStr "")) (fun title =>
  rbind (dict_get tech "content" (JStr "")) (fun raw =>
  rbind (_clean_html raw) (fun content =>
  if truthy title
  then rbind (ProductTechnologySchema.make title content) (fun t => Ok [t])
  else Ok []))).

Definition _extract_technologies (product_data : json)
  : result (list ProductTechnologySchema.t) :=
  rbind (dict_get product_data "details" (JObj [])) (fun details =>
  rbind (dict_get details "technology" (JList [])) (fun technology_data =>
  match technology_data with
  | JList l => gather technology_entry l
  | JObj _ => technology_entry technology_data
  | _ => Ok []
  end)).

Definition feature_entry (group_title feature : json)
  : result (list ProductFeatureSchema.t) :=
  rbind (dict_get feature "content" (JStr "")) (fun content =>
  if truthy content
  then rbind (ProductFeatureSchema.make group_title content) (fun f => Ok [f])
  else Ok []).

Definition feature_group_entries (feature_group : json)
  : result (list ProductFeatureSchema.t) :=
  rbind (dict_get feature_group "group_title" (JStr "")) (fun group_title =>
  rbind (dict_get feature_group "group" (JList [])) (fun group =>
  rbind (py_iter group) (gather (feature_entry group_title)))).

Definition _extract_features (product_data : json)
  : result (list ProductFeatureSchema.t) :=
  rbind (dict_get product_data "details" (JObj [])) (fun details =>
  rbind (dict_get details "feature_details" (JList [])) (fun feature_details =>
  rbind (py_iter feature_details) (gather feature_group_entries))).

End Normalizer.
Export Normalizer.

(** ** Upsert: [_create_product], [_update_product], [collect_product] *)

Module Upsert.

(** [spec.value if isinstance(spec.value, str)
     else ", ".join(spec.value) if spec.value else None] *)
Definition spec_row_value (v : ProductSpecSchema.value_t) : option string :=
  match v with
  | ProductSpecSchema.VStr s => Some s
  | ProductSpecSchema.VList (x :: l) => Some (String.concat ", " (x :: l))
  | ProductSpecSchema.VList [] => None
  | ProductSpecSchema.VNone => None
  end.

Definition spec_row (uid : string) (spec : ProductSpecSchema.t) : ProductSpec.t :=
  ProductSpec.mk uid (ProductSpecSchema.spec_id spec)
    (ProductSpecSchema.title spec)
    (spec_row_value (ProductSpecSchema.value spec)).

Definition technology_row (uid : string) (tech : ProductTechnologySchema.t)
  : ProductTechnology.t :=
  ProductTechnology.mk uid (ProductTechnologySchema.title tech)
    (ProductTechnologySchema.content tech).

Definition feature_row (uid : string) (feature : ProductFeatureSchema.t)
  : ProductFeature.t :=
  ProductFeature.mk uid (ProductFeatureSchema.group_title feature)
    (ProductFeatureSchema.content feature).

(** The four "extract and create" blocks that both upsert paths share. *)
Definition add_children (uid : string) (product_data : json) : M Session unit :=
  specs <- lift (_extract_specs product_data) ;;
  for_each specs (fun spec => add_spec (spec_row uid spec)) ;;;
  prices <- lift (_extract_prices product_data) ;;
  for_each prices (fun rp =>
    if truthy (snd rp)
    then add_price (ProductPrice.mk uid (fst rp) (snd rp))
    else ret tt) ;;;
  technologies <- lift (_extract_technologies product_data) ;;
  for_each technologies (fun tech => add_technology (technology_row uid tech)) ;;;
  features <- lift (_extract_features product_data) ;;
  for_each features (fun feature => add_feature (feature_row uid feature)).

(** The products table is keyed by strings: a uid of another type is
    outside the database model and is made to fail where it would reach the
    database. *)
Definition uid_key (uid : json) : result string :=
  match as_str uid with
  | Some u => Ok u
  | None => Raise TypeError
  end.

(** [_create_product(product_data)] *)
Definition _create_product (product_data : json) : M Session string :=
  uid <- lift (rbind (dict_get product_data "uid" JNull) uid_key) ;;
  title <- lift (dict_get product_data "title" (JStr "")) ;;
  display_title <- lift (dict_get product_data "display_title" (JStr "")) ;;
  url <- lift (dict_get product_data "url" (JStr "")) ;;
  raw <- lift (dict_get product_data "description" (JStr "")) ;;
  description <- lift (_clean_html raw) ;;
  tagline <- lift (dict_get product_data "tagline" (JStr "")) ;;
  hold_product
    (Product.mk uid title display_title url (JStr description) tagline) ;;;
  flush ;;;
  add_children uid product_data ;;;
  commit ;;;
  ret uid.

(** [_update_product(product, product_data)]: each assignment changes the
    object that the session holds. *)
Definition _update_product (product : Product.t) (product_data : json)
  : M Session string :=
  title <- lift (dict_get product_data "title" (Product.title product)) ;;
  let product := Product.set_title product title in
  hold_product product ;;;
  display_title <-
    lift (dict_get product_data "display_title" (Product.display_title product)) ;;
  let product := Product.set_display_title product display_title in
  hold_product product ;;;
  url <- lift (dict_get product_data "url" (Product.url product)) ;;
  let product := Product.set_url product url in
  hold_product product ;;;
  raw <- lift (dict_get product_data "description" (Product.description product)) ;;
  description <- lift (_clean_html raw) ;;
  let product := Product.set_description product (JStr description) in
  hold_product product ;;;
  tagline <- lift (dict_get product_data "tagline" (Product.tagline product)) ;;
  let product := Product.set_tagline product tagline in
  hold_product product ;;;
  delete_specs (Product.uid product) ;;;
  delete_prices (Product.uid product) ;;;
  delete_technologies (Product.uid product) ;;;
  delete_features (Product.uid product) ;;;
  add_children (Product.uid product) product_data ;;;
  commit ;;;
  ret (Product.uid product).

Section Collector.

Variable post : json -> GraphQL.http_outcome.
Variables GET_PAGINATED_PRODUCT_GRID_QUERY GET_PRODUCT_QUERY : string.
Variables region locale : string.

(** [collect_product(url)] *)
Definition collect_product (url : json) : M Session (option string) :=
  try_except
    (response <- lift (GraphQL.get_product post GET_PRODUCT_QUERY url locale region) ;;
     data <- lift (dict_get response "data" (JObj [])) ;;
     product_data <- lift (dict_get data "product" (JObj [])) ;;
     if negb (truthy product_data) then ret None
     else
       uid <- lift (dict_get product_data "uid" JNull) ;;
       if negb (truthy uid) then ret None
       else
         uid <- lift (uid_key uid) ;;
         existing_product <- query_product uid ;;
         match existing_product with
         | Some product =>
             u <- _update_product product product_data ;; ret (Some u)
         | None =>
             u <- _create_product product_data ;; ret (Some u)
         end)
    (fun _ => ret None).

End Collector.

End Upsert.
Export Upsert.

(** ** The run: [ProductCollector.collect_products] *)

Module Run.

(** The two sets of a run, as the lists of their members in insertion
    order, and the state [world] that the two callees work on. *)
Record run_state (St : Type) : Type := mk {
  collected_uids : list string;
  product_urls : list json;
  world : St }.
Arguments mk {St}.
Arguments collected_uids {St}.
Arguments product_urls {St}.
Arguments world {St}.

(** [limit and len(collected_uids) >= limit] *)
Definition limit_reached (limit : option Z) (n : nat) : bool :=
  match limit with
  | Some l => negb (l =? 0) && (l <=? Z.of_nat n)
  | None => false
  end.

(** [collected_uids.add(uid)] *)
Definition set_add (uid : string) (uids : list string) : list string :=
  if existsb (String.eqb uid) uids then uids else (uids ++ [uid])%list.

Section Loop.

Context {St : Type}.

(** The two callees, as the tests patch them: the grid query of a category
    and [self.collect_product]. *)
Variable get_paginated_products : Z -> M St json.
Variable collect_product : json -> M St (option string).

Definition in_world {A} (m : M St A) : M (run_state St) A :=
  fun s =>
    match m (world s) with
    | (r, w) => (r, mk (collected_uids s) (product_urls s) w)
    end.

Definition add_url (url : json) : M (run_state St) unit :=
  modify (fun s => mk (collected_uids s) (product_urls s ++ [url])%list (world s)).

Definition add_uid (uid : string) : M (run_state St) unit :=
  modify (fun s => mk (set_add uid (collected_uids s)) (product_urls s) (world s)).

(** [for product_data in products_data: ...] *)
Fixpoint product_loop (limit : option Z) (products_data : list json)
  : M (run_state St) unit :=
  match products_data with
  | [] => ret tt
  | product_data :: rest =>
      n <- gets (fun s => length (collected_uids s)) ;;
      if limit_reached limit n then ret tt (* break *)
      else
        url <- lift (dict_get product_data "url" JNull) ;;
        skip <- (if negb (truthy url) then ret true
                 else (urls <- gets product_urls ;; lift (set_mem url urls))) ;;
        if skip : bool then product_loop limit rest (* continue *)
        else
          add_url url ;;;
          try_except
            (uid <- in_world (collect_product url) ;;
             match uid with
             | Some u => if truthy (JStr u) then add_uid u else ret tt
             | None => ret tt
             end)
            (fun _ => ret tt) ;;;
          product_loop limit rest
  end.

(** The body of the [try] of one category. *)
Definition collect_category (limit : option Z) (category : Z)
  : M (run_state St) unit :=
  response <- in_world (get_paginated_products category) ;;
  data <- lift (dict_get response "data" (JObj [])) ;;
  grid <- lift (dict_get data "paginatedProductGrid" (JObj [])) ;;
  products_data <- lift (dict_get grid "products" (JList [])) ;;
  data' <- lift (dict_get response "data" (JObj [])) ;;
  grid' <- lift (dict_get data' "paginatedProductGrid" (JObj [])) ;;
  total <- lift (dict_get grid' "total" (JInt 0)) ;;
  (* the log line takes len(products_data) *)
  _ <- lift (py_len products_data) ;;
  products <- lift (py_iter products_data) ;;
  product_loop limit products.

(** [for category in categories: ...] *)
Fixpoint category_loop (limit : option Z) (categories : list Z)
  : M (run_state St) unit :=
  match categories with
  | [] => ret tt
  | category :: rest =>
      n <- gets (fun s => length (collected_uids s)) ;;
      if limit_reached limit n then ret tt (* break *)
      else
        try_except (collect_category limit category) (fun _ => ret tt) ;;;
        category_loop limit rest
  end.

(** [list(range(1, 301))] *)
Definition default_categories : list Z := map Z.of_nat (seq 1 300).

(** [collect_products(categories, limit)]. The returned list is that of
    the set [collected_uids]; the order Python gives it is not specified,
    here it is the order of insertion. *)
Definition collect_products (categories : option (list Z)) (limit : option Z)
  : M St (list string) :=
  fun w =>
    let categories :=
      match categories with
      | Some l => l
      | None => default_categories
      end in
    match category_loop limit categories (mk [] [] w) with
    | (r, s) => (rbind r (fun _ => Ok (collected_uids s)), world s)
    end.

End Loop.

End Run.

(** ** The collector on the catalog client and the session *)

Module ProductCollector.

Section Collector.

Variable post : json -> GraphQL.http_outcome.
Variables GET_PAGINATED_PRODUCT_GRID_QUERY GET_PRODUCT_QUERY : string.
Variables region locale : string.

Definition DQ : string := String (ascii_of_nat 34) EmptyString.

(** [f"{category}"] *)
Definition decimal (n : Z) : string := NilZero.string_of_int (Z.to_int n).

(** The filter expression of a category. *)
Definition query_string (category : Z) : string :=
  "{" ++ DQ ++ "bc_products." ++ region ++ ".categories" ++ DQ ++ ":{"
  ++ DQ ++ "$in" ++ DQ ++ ":[" ++ decimal category ++ "]},"
  ++ DQ ++ "regions" ++ DQ ++ ":{" ++ DQ ++ "$in" ++ DQ ++ ":["
  ++ DQ ++ region ++ DQ ++ "]}}"
  ++ "&limit=30&skip=0&include_count=true&asc=bc_products." ++ region
  ++ ".sort_order"
  ++ "&locale=" ++ locale ++ "&include_fallback=true".

Definition grid_of (category : Z) : M Session json :=
  lift (GraphQL.get_paginated_products post GET_PAGINATED_PRODUCT_GRID_QUERY
          (query_string category) region).

Definition collect_products (categories : option (list Z)) (limit : option Z)
  : M Session (list string) :=
  Run.collect_products grid_of
    (collect_product post GET_PRODUCT_QUERY region locale)
    categories limit.

End Collector.

End ProductCollector.

(** ** The specification's reading of HTML stripping *)

Module HtmlSpec.




(** No line feed in [s]. *)
Fixpoint line_free (s : string) : bool :=
  match s with
  | EmptyString => true
  | String c r => negb (Ascii.eqb c LF) && line_free r
  end.

(** No ["<"] of [t] opens a span that the pattern [<.*?>] matches. *)
Fixpoint tagless (t : string) : Prop :=
  match t with
  | EmptyString => True
  | String c r => (c = "<"%char -> tag_len r = None) /\ tagless r
  end.



(** Every whitespace character of [t] is a single space that follows a
    character that is not whitespace; [after_space] tells what precedes
    [t]. *)
Fixpoint single_spaced (after_space : bool) (t : string) : bool :=
  match t with
  | EmptyString => true
  | String c r =>
      if is_space c
      then Ascii.eqb c " " && negb after_space && single_spaced true r
      else single_spaced false r
  end.

(** [t] does not end with whitespace. *)
Fixpoint ends_clean (t : string) : bool :=
  match t with
  | EmptyString => true
  | String c EmptyString => negb (is_space c)
  | String _ r => ends_clean r
  end.

(** The shape of a stripped text: no whitespace at either end, and
    between two words one space and no other whitespace. *)
Definition normalized (t : string) : bool :=
  single_spaced true t && ends_clean t.


End HtmlSpec.

(** ** The shape of a feature payload *)

Module FeatureSpec.

(** The title that the rows of a group carry: the value of
    ["group_title"], [""] when the key is absent, nothing when it is null. *)
Inductive title_view : option json -> option string -> Prop :=
| title_absent : title_view None (Some "")
| title_null : title_view (Some JNull) None
| title_str s : title_view (Some (JStr s)) (Some s).

(** A feature item and the string its ["content"] holds ([""] when the key
    is absent). *)
Definition item_view (item : json) (content : string) : Prop :=
  exists kvs, item = JObj kvs /\
    (lookup_key "content" kvs = Some (JStr content)
     \/ lookup_key "content" kvs = None /\ content = "").

(** A feature group, its title and the contents of its items in order. *)
Definition group_view (feature_group : json) (g : option string * list string)
  : Prop :=
  exists kvs items,
    feature_group = JObj kvs /\
    title_view (lookup_key "group_title" kvs) (fst g) /\
    lookup_key "group" kvs = Some (JList items) /\
    Forall2 item_view items (snd g).

Definition nonempty (s : string) : bool := negb (String.eqb s "").

(** One row per item with content, under the title of its group. *)
Definition rows (groups : list (option string * list string))
  : list ProductFeatureSchema.t :=
  flat_map (fun g => map (ProductFeatureSchema.mk (fst g)) (List.filter nonempty (snd g)))
    groups.

End FeatureSpec.

(** ** The shape of a technology payload *)

Module TechnologySpec.

(** The string that a key of an entry holds, [""] when the key is absent. *)
Definition field_view (kvs : list (string * json)) (k : string) (v : string)
  : Prop :=
  lookup_key k kvs = Some (JStr v) \/ lookup_key k kvs = None /\ v = "".

(** A technology entry, its title and its content. *)
Definition entry_view (tech : json) (e : string * string) : Prop :=
  exists kvs,
    tech = JObj kvs /\ field_view kvs "title" (fst e)
    /\ field_view kvs "content" (snd e).

(** One row per entry that has a title, with the stripped content. *)
Definition rows (entries : list (string * string))
  : list ProductTechnologySchema.t :=
  flat_map
    (fun e =>
       if String.eqb (fst e) "" then []
       else [ProductTechnologySchema.mk (fst e) (clean_str (snd e))])
    entries.

End TechnologySpec.

(** ** Reading the session *)

Module DbSpec.

Definition of_uid {A} (product_uid : A -> string) (uid : string) (r : A) : bool :=
  String.eqb (product_uid r) uid.

(** The child rows of a product in a store. *)
Definition specs_of (uid : string) (d : DB) : list ProductSpec.t :=
  List.filter (of_uid ProductSpec.product_uid uid) (product_specs d).

Definition prices_of (uid : string) (d : DB) : list ProductPrice.t :=
  List.filter (of_uid ProductPrice.product_uid uid) (product_prices d).

Definition technologies_of (uid : string) (d : DB) : list ProductTechnology.t :=
  List.filter (of_uid ProductTechnology.product_uid uid) (product_technologies d).

Definition features_of (uid : string) (d : DB) : list ProductFeature.t :=
  List.filter (of_uid ProductFeature.product_uid uid) (product_features d).

(** The price rows of a payload: one per region whose price is truthy. *)
Definition price_rows (uid : string) (prices : list (string * json))
  : list ProductPrice.t :=
  map (fun rp => ProductPrice.mk uid (fst rp) (snd rp))
    (List.filter (fun rp => truthy (snd rp)) prices).

(** The session once the object [p] is held, once the child rows of [uid]
    are deleted, and once rows are added. *)
Definition held (p : Product.t) (s : Session) : Session :=
  set_unflushed (fun d =>
    mkDB (<[Product.uid p := p]> (products d)) (product_specs d)
         (product_prices d) (product_technologies d) (product_features d)) s.

Definition deleted (uid : string) (s : Session) : Session :=
  set_tx (fun d =>
    mkDB (products d)
         (List.filter (other_uid ProductSpec.product_uid uid) (product_specs d))
         (List.filter (other_uid ProductPrice.product_uid uid) (product_prices d))
         (List.filter (other_uid ProductTechnology.product_uid uid)
                      (product_technologies d))
         (List.filter (other_uid ProductFeature.product_uid uid)
                      (product_features d))) s.

Definition pushed (specs : list ProductSpec.t) (prices : list ProductPrice.t)
    (technologies : list ProductTechnology.t) (features : list ProductFeature.t)
    (s : Session) : Session :=
  set_unflushed (fun d =>
    mkDB (products d) (product_specs d ++ specs)%list
         (product_prices d ++ prices)%list
         (product_technologies d ++ technologies)%list
         (product_features d ++ features)%list) s.

Definition after_commit (s : Session) : Session :=
  mkSession (written (unflushed s) (tx s)) (written (unflushed s) (tx s)) empty_db.

(** The value a payload gives to a root attribute: its own when it has the
    key, the stored one otherwise. *)
Definition payload_or (kvs : list (string * json)) (k : string) (stored : json)
  : json :=
  match lookup_key k kvs with
  | Some v => v
  | None => stored
  end.

(** The object that [_update_product] holds once the five attributes are
    assigned; [description] is the stripped text. *)
Definition updated (product : Product.t) (kvs : list (string * json))
    (description : string) : Product.t :=
  Product.mk (Product.uid product)
    (payload_or kvs "title" (Product.title product))
    (payload_or kvs "display_title" (Product.display_title product))
    (payload_or kvs "url" (Product.url product))
    (JStr description)
    (payload_or kvs "tagline" (Product.tagline product)).

End DbSpec.

(** ** The steps of a run *)

Module RunSpec.

Import Run.

Section Steps.

Context {St : Type}.
Variable collect_product : json -> M St (option string).

(** The products of a grid response, as [collect_category] reads them. *)
Definition grid_products (response : json) : result (list json) :=
  rbind (dict_get response "data" (JObj [])) (fun data =>
  rbind (dict_get data "paginatedProductGrid" (JObj [])) (fun grid =>
  rbind (dict_get grid "products" (JList [])) (fun products_data =>
  py_iter products_data))).

(** The state once [url] is noted, collected, and its uid added. *)
Definition fetched (url : json) (s : run_state St) : run_state St :=
  match collect_product url (world s) with
  | (r, w) =>
      mk (match r with
          | Ok (Some uid) =>
              if String.eqb uid "" then collected_uids s
              else set_add uid (collected_uids s)
          | _ => collected_uids s
          end)
         (product_urls s ++ [url])%list w
  end.

(** The state once the grid of a category has answered. *)
Definition with_world (w : St) (s : run_state St) : run_state St :=
  mk (collected_uids s) (product_urls s) w.

End Steps.

End RunSpec.

(** ** Observing a run *)

Module Trace.

(** The calls that a run makes, in order: the grid query of a category,
    and the collection of a product url with what it gave. *)
Inductive event : Type :=
| GridQuery (category : Z)
| DetailFetch (url : json) (outcome : result (option string)).

Section Traced.

Context {St : Type}.
Variable get_paginated_products : Z -> M St json.
Variable collect_product : json -> M St (option string).

(** The two callees, made to note each call after the ones before it. *)
Definition traced_grid (category : Z) : M (St * list event) json :=
  fun s =>
    match get_paginated_products category (fst s) with
    | (r, w) => (r, (w, snd s ++ [GridQuery category])%list)
    end.

Definition traced_detail (url : json) : M (St * list event) (option string) :=
  fun s =>
    match collect_product url (fst s) with
    | (r, w) => (r, (w, snd s ++ [DetailFetch url r])%list)
    end.

Definition collect_products (categories : option (list Z)) (limit : option Z)
    (w : St) : result (list string) * (St * list event) :=
  Run.collect_products traced_grid traced_detail categories limit (w, []).

End Traced.

(** The urls that were collected, in order. *)
Definition fetched_urls (t : list event) : list json :=
  flat_map (fun e => match e with DetailFetch url _ => [url] | _ => [] end) t.

(** The categories whose grid was queried, in order. *)
Definition queried (t : list event) : list Z :=
  flat_map (fun e => match e with GridQuery c => [c] | _ => [] end) t.

(** The uid that a call created or updated, if it did. *)
Definition uid_of (e : event) : option string :=
  match e with
  | DetailFetch _ (Ok (Some uid)) => if String.eqb uid "" then None else Some uid
  | _ => None
  end.

(** The set of the uids created or updated by the calls of [t]. *)
Definition created_or_updated (t : list event) : list string :=
  fold_left
    (fun uids e =>
       match uid_of e with
       | Some uid => Run.set_add uid uids
       | None => uids
       end)
    t [].

(** The calls of [t] that collected a url equal to [url]. *)
Definition fetches_of (url : json) (t : list event) : list event :=
  List.filter
    (fun e => match e with DetailFetch u _ => Py.eqb url u | _ => false end) t.

(** No two members of [l] are equal. *)
Fixpoint distinct (l : list json) : Prop :=
  match l with
  | [] => True
  | x :: rest => existsb (Py.eqb x) rest = false /\ distinct rest
  end.

(** Every call of [t] was made while the limit was not reached by the
    uids of the calls before it. *)
Definition within_limit (limit : option Z) (t : list event) : Prop :=
  forall t1 e t2,
    t = (t1 ++ e :: t2)%list ->
    Run.limit_reached limit (length (created_or_updated t1)) = false.

Section Observed.

Context {St : Type}.

(** What a run keeps true of its two sets and of its calls. *)
Definition observed (limit : option Z) (s : Run.run_state (St * list event))
  : Prop :=
  Run.product_urls s = fetched_urls (snd (Run.world s))
  /\ distinct (Run.product_urls s)
  /\ Run.collected_uids s = created_or_updated (snd (Run.world s))
  /\ within_limit limit (snd (Run.world s)).

(** The state of a run that notes its calls, against the state of the run. *)
Definition erases (s' : Run.run_state (St * list event)) (s : Run.run_state St)
  : Prop :=
  Run.collected_uids s' = Run.collected_uids s
  /\ Run.product_urls s' = Run.product_urls s
  /\ fst (Run.world s') = Run.world s.

End Observed.

End Trace.

(** ** A catalog to run the collector on *)

Module Scenario.

Definition region : string := "no".
Definition locale : string := "en-us".
Definition GRID_QUERY : string := "query GetPaginatedProductGrid".
Definition PRODUCT_QUERY : string := "query GetProduct".

Definition response (data : json) : GraphQL.http_outcome :=
  GraphQL.Response 200 (Some (JObj [("data", data)])).

Definition variable (payload : json) (name : string) : json :=
  match rbind (dict_get payload "variables" JNull)
              (fun v => dict_get v name JNull) with
  | Ok x => x
  | Raise _ => JNull
  end.

(** A catalog server: [grids] gives the product urls of a category,
    [details] the product of a url; an unknown category has no product and
    an unknown url gives [null]. *)
Fixpoint grid_of (grids : list (Z * list string)) (query_string : json)
  : GraphQL.http_outcome :=
  match grids with
  | [] =>
      response (JObj [("paginatedProductGrid",
                       JObj [("products", JList []); ("total", JInt 0)])])
  | (category, urls) :: rest =>
      if Py.eqb query_string
           (JStr (ProductCollector.query_string region locale category))
      then response (JObj [("paginatedProductGrid",
             JObj [("products", JList (map (fun u => JObj [("url", JStr u)]) urls));
                   ("total", JInt (Z.of_nat (length urls)))])])
      else grid_of rest query_string
  end.

Fixpoint detail_of (details : list (string * json)) (url : json)
  : GraphQL.http_outcome :=
  match details with
  | [] => response (JObj [("product", JNull)])
  | (u, product) :: rest =>
      if Py.eqb url (JStr u) then response (JObj [("product", product)])
      else detail_of rest url
  end.

Definition server (grids : list (Z * list string))
    (details : list (string * json)) (payload : json) : GraphQL.http_outcome :=
  match dict_get payload "operationName" JNull with
  | Ok (JStr "GetPaginatedProductGrid") =>
      grid_of grids (variable payload "queryString")
  | Ok (JStr "GetProduct") => detail_of details (variable payload "url")
  | _ => GraphQL.NoResponse
  end.

Definition collect_products grids details :=
  ProductCollector.collect_products (server grids details)
    GRID_QUERY PRODUCT_QUERY region locale.

Definition collect_product grids details :=
  Upsert.collect_product (server grids details) PRODUCT_QUERY region locale.

(** The stored product ["abc123"], with two specs, one price, one
    technology and one feature. *)
Definition ski_x : Product.t :=
  Product.mk "abc123" (JStr "Ski X") (JStr "Ski X") (JStr "/ski-x")
    (JStr "A fast ski.") (JStr "Go fast").

Definition stored : DB :=
  mkDB {[ "abc123" := ski_x ]}
    [ProductSpec.mk "abc123" "len" "Length" (Some "170cm");
     ProductSpec.mk "abc123" "w" "Width" (Some "44mm")]
    [ProductPrice.mk "abc123" "no" (JStr "100 NOK")]
    [ProductTechnology.mk "abc123" "Carbon" "Carbon core"]
    [ProductFeature.mk "abc123" (Some "Ski Characteristics") "Glide"].

(** A new payload for ["abc123"]: one spec, and ["details"] is [null]. *)
Definition ski_x_without_details : json :=
  JObj [("uid", JStr "abc123"); ("title", JStr "Ski X 2");
        ("updated_product_specs",
         JList [JObj [("id", JStr "len"); ("title", JStr "Length");
                      ("value", JStr "175cm")]]);
        ("prices", JObj [("no", JStr "120 NOK"); ("gb", JStr "")]);
        ("details", JNull)].

Definition ski_y : json :=
  JObj [("uid", JStr "def456"); ("title", JStr "Ski Y");
        ("display_title", JStr "Ski Y"); ("url", JStr "/ski-y");
        ("description", JStr "<p>A light ski.</p>"); ("tagline", JStr "Go far");
        ("updated_product_specs", JList []);
        ("prices", JObj []);
        ("details", JObj [("technology", JList []); ("feature_details", JList [])])].

(** The stored product has two specs; the new payload has one. *)
Definition ski_x_update : list (string * json) :=
  [("uid", JStr "abc123"); ("title", JStr "Ski X 2");
   ("updated_product_specs",
    JList [JObj [("id", JStr "len"); ("title", JStr "Length");
                 ("value", JList [JStr "175cm"; JStr "180cm"])]]);
   ("prices", JObj [("no", JStr "120 NOK"); ("gb", JStr "")]);
   ("details", JObj [("technology",
                      JObj [("title", JStr "T"); ("content", JStr "<p>C</p>")])])].



(** A payload with two feature groups. *)
Definition features_payload : json :=
  JObj [("uid", JStr "abc123");
        ("details", JObj [("feature_details", JList [
           JObj [("group_title", JStr "Ski Characteristics");
                 ("group", JList [JObj [("title", JStr ""); ("content", JStr "Glide")];
                                  JObj [("title", JStr ""); ("content", JStr "")];
                                  JObj [("content", JStr "<b>Lightness</b>")]])];
           JObj [("group_title", JNull);
                 ("group", JList [JObj [("content", JStr "Stability")]])]])])].

(** The collector on a catalog, noting its calls. *)
Definition traced_collect_products grids details :=
  Trace.collect_products
    (ProductCollector.grid_of (server grids details) GRID_QUERY region locale)
    (Upsert.collect_product (server grids details) PRODUCT_QUERY region locale).

End Scenario.

(** ** The shape of a specification payload *)

Module SpecSpec.

(** The value of a spec entry as the schema keeps it: the value of
    ["value"], [""] when the key is absent. *)
Definition value_view (kvs : list (string * json))
    (v : ProductSpecSchema.value_t) : Prop :=
  (exists raw, lookup_key "value" kvs = Some raw
               /\ ProductSpecSchema.validate_value raw = Some v)
  \/ lookup_key "value" kvs = None /\ v = ProductSpecSchema.VStr "".

(** A spec entry, with its identifier, its title and its value. *)
Definition entry_view (spec : json) (e : ProductSpecSchema.t) : Prop :=
  exists kvs,
    spec = JObj kvs
    /\ TechnologySpec.field_view kvs "id" (ProductSpecSchema.spec_id e)
    /\ TechnologySpec.field_view kvs "title" (ProductSpecSchema.title e)
    /\ value_view kvs (ProductSpecSchema.value e).

(** The entries that have both an identifier and a title. *)
Definition kept (entries : list ProductSpecSchema.t) : list ProductSpecSchema.t :=
  List.filter
    (fun e =>
       negb (String.eqb (ProductSpecSchema.spec_id e) "")
       && negb (String.eqb (ProductSpecSchema.title e) ""))
    entries.

End SpecSpec.

(** ** Reading an upsert *)

Module UpsertSpec.

Import DbSpec.

(** The product of a detail response, as [collect_product] reads it. *)
Definition product_of (response : json) : result json :=
  rbind (dict_get response "data" (JObj [])) (fun data =>
  dict_get data "product" (JObj [])).

(** The object that [_create_product] adds; [description] is the stripped
    text. *)
Definition created (kvs : list (string * json)) (uid description : string)
  : Product.t :=
  Product.mk uid
    (payload_or kvs "title" (JStr ""))
    (payload_or kvs "display_title" (JStr ""))
    (payload_or kvs "url" (JStr ""))
    (JStr description)
    (payload_or kvs "tagline" (JStr "")).

(** The session once the unit of work is sent. *)
Definition flushed (s : Session) : Session :=
  mkSession (committed s) (written (unflushed s) (tx s)) empty_db.

(** The stores agree on everything of [uid]: its product and its rows in
    the four child tables. *)
Definition same_product (uid : string) (d d' : DB) : Prop :=
  products d !! uid = products d' !! uid
  /\ specs_of uid d = specs_of uid d'
  /\ prices_of uid d = prices_of uid d'
  /\ technologies_of uid d = technologies_of uid d'
  /\ features_of uid d = features_of uid d'.

(** The store has no child row of [uid]. *)
Definition childless (uid : string) (d : DB) : Prop :=
  specs_of uid d = [] /\ prices_of uid d = []
  /\ technologies_of uid d = [] /\ features_of uid d = [].

(** Every product is stored under its own uid. *)
Definition keyed (d : DB) : Prop :=
  forall k p, products d !! k = Some p -> Product.uid p = k.

(** A uid without a product has no child row. *)
Definition referential (d : DB) : Prop :=
  forall uid, products d !! uid = None -> childless uid d.

End UpsertSpec.

(** ** Reading a grid *)

Module GridSpec.

(** A grid whose entries the product loop can handle: each is an object
    whose ["url"], [None] when absent, is falsy or hashable. *)
Definition well_formed (products_data : list json) : Prop :=
  Forall (fun product_data =>
            exists url,
              dict_get product_data "url" JNull = Ok url
              /\ (truthy url = false \/ hashable url = true))
         products_data.

(** An entry on which the body of the product loop raises: it is not an
    object, or its ["url"] is truthy and not hashable. *)
Definition malformed (product_data : json) : Prop :=
  (exists e, dict_get product_data "url" JNull = Raise e)
  \/ (exists url,
        dict_get product_data "url" JNull = Ok url
        /\ truthy url = true /\ hashable url = false).

(** The grid lists [url]: one of its entries has it, and it is truthy. *)
Definition lists (products_data : list json) (url : json) : Prop :=
  exists product_data,
    In product_data products_data
    /\ dict_get product_data "url" JNull = Ok url
    /\ truthy url = true.

(** [url] is a member of the set [urls]. *)
Definition noted (url : json) (urls : list json) : bool :=
  existsb (Py.eqb url) urls.

End GridSpec.

(** ** Formatting: [madshus/formatters/product_formatter.py]

    The formatter reads the rows of a product and makes one text per child
    table. The rows are those the collector writes. A Python [dict] is the
    list of its items in insertion order, one per key. *)

Module Formatter.


(** [d[k] = v]: a key that is there keeps its place. *)
Fixpoint dict_set {V} (k : string) (v : V) (d : list (string * V))
  : list (string * V) :=
  match d with
  | [] => [(k, v)]
  | (k', v') :: rest =>
      if String.eqb k' k then (k', v) :: rest else (k', v') :: dict_set k v rest
  end.

(** [if k not in d: d[k] = []] then [d[k].append(c)] *)
Fixpoint dict_append (k : string) (c : string) (d : list (string * list string))
  : list (string * list string) :=
  match d with
  | [] => [(k, [c])]
  | (k', cs) :: rest =>
      if String.eqb k' k then (k', (cs ++ [c])%list) :: rest
      else (k', cs) :: dict_append k c rest
  end.

(** [None] when there is no line, the lines joined otherwise. *)
Definition join_lines (sep : string) (lines : list string) : option string :=
  match lines with
  | [] => None
  | _ => Some (String.concat sep lines)
  end.

(** [specs_by_title], once the first loop of [_format_specs] is over. *)
Definition specs_by_title (specs : list ProductSpec.t)
  : list (string * option string) :=
  fold_left
    (fun d spec => dict_set (ProductSpec.title spec) (ProductSpec.value spec) d)
    specs [].

Definition spec_line (tv : string * option string) : list string :=
  match snd tv with
  | Some value => if String.eqb value "" then [] else [fst tv ++ ": " ++ value]
  | None => []
  end.

(** [_format_specs(specs)] *)
Definition _format_specs (specs : list ProductSpec.t) : option string :=
  match specs with
  | [] => None
  | _ => join_lines "; " (flat_map spec_line (specs_by_title specs))
  end.

(** [feature.group_title or "General"] *)
Definition group_of (feature : ProductFeature.t) : string :=
  match ProductFeature.group_title feature with
  | Some t => if String.eqb t "" then "General" else t
  | None => "General"
  end.

(** [features_by_group], once the first loop of [_format_features] is
    over. *)
Definition features_by_group (features : list ProductFeature.t)
  : list (string * list string) :=
  fold_left
    (fun d feature => dict_append (group_of feature) (ProductFeature.content feature) d)
    features [].

Definition feature_line (gc : string * list string) : list string :=
  match snd gc with
  | [] => []
  | contents => [fst gc ++ ": " ++ String.concat ", " contents]
  end.

(** [_format_features(features)] *)
Definition _format_features (features : list ProductFeature.t) : option string :=
  match features with
  | [] => None
  | _ => join_lines " | " (flat_map feature_line (features_by_group features))
  end.

End Formatter.

(** ** Reading the formatter *)

Module FormatterSpec.



End FormatterSpec.

(** ** More payloads *)

Module Samples.

(** Five spec entries: two lack an identifier or a title. *)
Definition spec_entries : list json :=
  [JObj [("id", JStr "len"); ("title", JStr "Length"); ("value", JStr "170cm")];
   JObj [("id", JStr ""); ("title", JStr "Width"); ("value", JStr "44mm")];
   JObj [("id", JStr "cam"); ("value", JStr "High")];
   JObj [("id", JStr "sizes"); ("title", JStr "Sizes");
         ("value", JList [JStr "170"; JStr "175"])];
   JObj [("id", JStr "core"); ("title", JStr "Core")]].

(** The body of a detail response for [product]. *)
Definition detail_response (product : json) : json :=
  JObj [("data", JObj [("product", product)])].

(** A grid response whose second entry is [null]. *)
Definition broken_grid : json :=
  JObj [("data", JObj [("paginatedProductGrid", JObj [
     ("products", JList [JObj [("url", JStr "/ski-a")]; JNull;
                         JObj [("url", JStr "/ski-b")]]);
     ("total", JInt 3)])])].

(** The entries that the catalog of category 5 lists. *)
Definition catalog_grid (category : Z) : list json :=
  if category =? 5
  then [JObj [("url", JStr "/ski-x")]; JObj [("url", JStr "/ski-y")]]
  else [].

(** The features of [tests/test_formatter.py], and two without a group. *)
Definition features : list ProductFeature.t :=
  [ProductFeature.mk "test-uid" (Some "Test Feature Group 1") "Test feature content 1";
   ProductFeature.mk "test-uid" None "Light";
   ProductFeature.mk "test-uid" (Some "Test Feature Group 1") "Test feature content 2";
   ProductFeature.mk "test-uid" (Some "Test Feature Group 2") "Test feature content 3";
   ProductFeature.mk "test-uid" (Some "") "Stable"].

(** Specs: ["Length"] comes twice. *)
Definition specs : list ProductSpec.t :=
  [ProductSpec.mk "test-uid" "len" "Length" (Some "170cm");
   ProductSpec.mk "test-uid" "w" "Width" (Some "44mm");
   ProductSpec.mk "test-uid" "len2" "Length" None].

End Samples.

(** * Statements *)

(** ** HTML stripping *)

Section HtmlFacts.

Import HtmlSpec.

Example clean_p : _clean_html (JStr "<p>C</p>") = Ok "C".
Proof. reflexivity. Qed.

Example clean_ws :
  _clean_html (JStr ("  <b>a</b>  b " ++ String LF "c<br/>")) = Ok "a b c".
Proof. reflexivity. Qed.

Example clean_lf :
  _clean_html (JStr ("a<" ++ String LF ">b")) = Ok "a< >b".
Proof. reflexivity. Qed.

Example clean_nested : _clean_html (JStr "<<a>b>") = Ok "b>".
Proof. reflexivity. Qed.

Example clean_cr :
  _clean_html (JStr ("a<" ++ String (ascii_of_nat 13) ">b")) = Ok "ab".
Proof. reflexivity. Qed.

Example clean_spaces :
  _clean_html
    (JStr (String (ascii_of_nat 28) " a "
           ++ String (ascii_of_nat 133) (String (ascii_of_nat 160) "")))
  = Ok "a".
Proof. reflexivity. Qed.

Example clean_number : _clean_html (JInt 7) = Raise TypeError.
Proof. reflexivity. Qed.



Lemma tag_len_sub_tags r : tag_len r = None -> tag_len (sub_tags 0 r) = None.
Proof.
  induction r as [|c r IH]; simpl; [reflexivity|].
  destruct (Ascii.eqb c ">") eqn:Hgt; [discriminate|].
  destruct (Ascii.eqb c LF) eqn:Hlf.
  - intros _. destruct (Ascii.eqb c "<") eqn:Hlt.
    + apply Ascii.eqb_eq in Hlt, Hlf. subst c. discriminate.
    + simpl. rewrite Hgt, Hlf. reflexivity.
  - intros H. destruct (tag_len r) eqn:Hr; [discriminate|].
    destruct (Ascii.eqb c "<"); simpl; rewrite Hgt, Hlf, (IH eq_refl); reflexivity.
Qed.

Lemma sub_tags_tagless s : forall skip, tagless (sub_tags skip s).
Proof.
  induction s as [|c r IH]; simpl; [exact (fun _ => I)|].
  intros [|k]; [|apply IH].
  destruct (Ascii.eqb c "<") eqn:Hlt.
  - destruct (tag_len r) eqn:Hr; [apply IH|].
    simpl. split; [|apply IH]. intros _. apply tag_len_sub_tags, Hr.
  - simpl. split; [|apply IH].
    intros ->. discriminate.
Qed.






Lemma sub_spaces_single_spaced s :
  forall b, single_spaced b (sub_spaces b s) = true.
Proof.
  induction s as [|c r IH]; simpl; [reflexivity|].
  intros b. destruct (is_space c) eqn:Hc.
  - destruct b; [apply IH|]. simpl. apply IH.
  - simpl. rewrite Hc. apply IH.
Qed.

Lemma single_spaced_weaken t :
  single_spaced true t = true -> single_spaced false t = true.
Proof.
  destruct t as [|c r]; simpl; [reflexivity|].
  destruct (is_space c); [|exact id].
  rewrite andb_false_r. discriminate.
Qed.

Lemma lstrip_single_spaced t :
  single_spaced false t = true -> single_spaced true (lstrip t) = true.
Proof.
  destruct t as [|c r]; simpl; [reflexivity|].
  destruct (is_space c) eqn:Hc.
  - intros H. apply andb_true_iff in H as [_ Hr].
    destruct r as [|c' r']; simpl in *; [reflexivity|].
    destruct (is_space c') eqn:Hc'.
    + rewrite andb_false_r in Hr. discriminate.
    + simpl. rewrite Hc'. exact Hr.
  - intros H. simpl. rewrite Hc. exact H.
Qed.

Lemma rstrip_single_spaced t :
  forall b, single_spaced b t = true -> single_spaced b (rstrip t) = true.
Proof.
  induction t as [|c r IH]; simpl; [reflexivity|].
  intros b H. destruct (is_space c) eqn:Hc.
  - apply andb_true_iff in H as [H1 Hr]. specialize (IH _ Hr).
    destruct (rstrip r); [reflexivity|].
    simpl. rewrite Hc, H1. exact IH.
  - specialize (IH _ H).
    destruct (rstrip r); simpl; rewrite Hc; [reflexivity|exact IH].
Qed.

Lemma rstrip_ends_clean t : ends_clean (rstrip t) = true.
Proof.
  induction t as [|c r IH]; simpl; [reflexivity|].
  destruct (rstrip r) as [|c' r'] eqn:Hr.
  - destruct (is_space c) eqn:Hc; simpl; [reflexivity|]. rewrite Hc. reflexivity.
  - exact IH.
Qed.

Lemma clean_str_normalized s : normalized (clean_str s) = true.
Proof.
  unfold normalized, clean_str, strip.
  rewrite rstrip_ends_clean, andb_true_r.
  apply rstrip_single_spaced, lstrip_single_spaced, sub_spaces_single_spaced.
Qed.


Lemma sub_spaces_fixed t :
  forall b, single_spaced b t = true -> sub_spaces b t = t.
Proof.
  induction t as [|c r IH]; simpl; [reflexivity|].
  intros b. destruct (is_space c) eqn:Hc.
  - intros H. apply andb_true_iff in H as [H1 Hr].
    apply andb_true_iff in H1 as [Hsp Hb].
    apply negb_true_iff in Hb. subst b.
    apply Ascii.eqb_eq in Hsp. subst c. rewrite (IH _ Hr). reflexivity.
  - intros H. rewrite (IH _ H). reflexivity.
Qed.

Lemma lstrip_fixed t : single_spaced true t = true -> lstrip t = t.
Proof.
  destruct t as [|c r]; simpl; [reflexivity|].
  destruct (is_space c); [|reflexivity].
  rewrite andb_false_r. discriminate.
Qed.

Lemma rstrip_fixed t : ends_clean t = true -> rstrip t = t.
Proof.
  induction t as [|c r IH]; simpl; [reflexivity|].
  destruct r as [|c' r'].
  - simpl. intros H. apply negb_true_iff in H. rewrite H. reflexivity.
  - intros H. rewrite (IH H). reflexivity.
Qed.


End HtmlFacts.

(** ** Field extraction *)

Section NormalizerFacts.

Import FeatureSpec.

Lemma gather_cons {A B} (f : A -> result (list B)) x l kept more :
  f x = Ok kept -> gather f l = Ok more -> gather f (x :: l) = Ok (kept ++ more)%list.
Proof. intros Hx Hl. simpl. rewrite Hx, Hl. reflexivity. Qed.

Lemma gather_one {A B} (f : A -> result (list B)) x : gather f [x] = f x.
Proof.
  simpl. destruct (f x) as [kept|e]; simpl; [|reflexivity].
  rewrite app_nil_r. reflexivity.
Qed.

Lemma feature_entry_view raw t item c :
  ProductFeatureSchema.validate_group_title raw = Some t ->
  item_view item c ->
  feature_entry raw item
  = Ok (map (ProductFeatureSchema.mk t) (List.filter nonempty [c])).
Proof.
  intros Ht (kvs & -> & [Hc | [Hc ->]]); unfold feature_entry; simpl; rewrite Hc.
  - simpl. unfold nonempty.
    destruct (String.eqb c ""); simpl; [reflexivity|].
    unfold ProductFeatureSchema.make. rewrite Ht. reflexivity.
  - reflexivity.
Qed.

Lemma gather_items raw t items contents :
  ProductFeatureSchema.validate_group_title raw = Some t ->
  Forall2 item_view items contents ->
  gather (feature_entry raw) items
  = Ok (map (ProductFeatureSchema.mk t) (List.filter nonempty contents)).
Proof.
  intros Ht H. induction H as [|item c items contents Hi _ IH]; [reflexivity|].
  rewrite (gather_cons _ _ _ _ _ (feature_entry_view raw t item c Ht Hi) IH).
  simpl. destruct (nonempty c); reflexivity.
Qed.

Lemma feature_group_view feature_group g :
  group_view feature_group g ->
  feature_group_entries feature_group
  = Ok (map (ProductFeatureSchema.mk (fst g)) (List.filter nonempty (snd g))).
Proof.
  intros (kvs & items & -> & Ht & Hg & Hitems).
  unfold feature_group_entries. simpl. rewrite Hg. simpl.
  inversion Ht as [Hk|Hk|s Hk]; apply gather_items; auto.
Qed.

Lemma gather_groups feature_details groups :
  Forall2 group_view feature_details groups ->
  gather feature_group_entries feature_details = Ok (rows groups).
Proof.
  intros H. induction H as [|fg g fgs gs Hg _ IH]; [reflexivity|].
  exact (gather_cons _ _ _ _ _ (feature_group_view fg g Hg) IH).
Qed.

Lemma clean_html_str s : _clean_html (JStr s) = Ok (clean_str s).
Proof. destruct s; reflexivity. Qed.

Lemma technology_entry_view tech e :
  TechnologySpec.entry_view tech e ->
  technology_entry tech = Ok (TechnologySpec.rows [e]).
Proof.
  intros (kvs & -> & Ht & Hc). unfold technology_entry, TechnologySpec.rows.
  cbn [dict_get rbind flat_map]. rewrite app_nil_r.
  assert (Ec : _clean_html
                 match lookup_key "content" kvs with
                 | Some v => v
                 | None => JStr ""
                 end = Ok (clean_str (snd e))).
  { destruct Hc as [->|[-> ->]]; [apply clean_html_str | reflexivity]. }
  rewrite Ec. cbn [rbind].
  destruct Ht as [->|[-> ->]]; [|reflexivity].
  cbn [truthy]. destruct (String.eqb (fst e) ""); reflexivity.
Qed.

Lemma gather_technologies l entries :
  Forall2 TechnologySpec.entry_view l entries ->
  gather technology_entry l = Ok (TechnologySpec.rows entries).
Proof.
  intros H. induction H as [|tech e l entries He _ IH]; [reflexivity|].
  rewrite (gather_cons _ _ _ _ _ (technology_entry_view tech e He) IH).
  unfold TechnologySpec.rows. simpl. rewrite app_nil_r. reflexivity.
Qed.

End NormalizerFacts.

(** ** The session and the upsert *)

Section UpsertFacts.

Import DbSpec.

Lemma pushed_nil s : pushed [] [] [] [] s = s.
Proof.
  destruct s as [c t [p a b d e]]. unfold pushed, set_unflushed. simpl.
  rewrite !app_nil_r. reflexivity.
Qed.

Lemma pushed_pushed a b c d a' b' c' d' s :
  pushed a' b' c' d' (pushed a b c d s)
  = pushed (a ++ a') (b ++ b') (c ++ c') (d ++ d') s.
Proof.
  unfold pushed, set_unflushed. simpl. rewrite <- !app_assoc. reflexivity.
Qed.

Lemma add_spec_run r s : add_spec r s = (Ok tt, pushed [r] [] [] [] s).
Proof.
  unfold add_spec, modify, pushed, set_unflushed. rewrite !app_nil_r. reflexivity.
Qed.

Lemma add_price_run r s : add_price r s = (Ok tt, pushed [] [r] [] [] s).
Proof.
  unfold add_price, modify, pushed, set_unflushed. rewrite !app_nil_r. reflexivity.
Qed.

Lemma add_technology_run r s : add_technology r s = (Ok tt, pushed [] [] [r] [] s).
Proof.
  unfold add_technology, modify, pushed, set_unflushed. rewrite !app_nil_r.
  reflexivity.
Qed.

Lemma add_feature_run r s : add_feature r s = (Ok tt, pushed [] [] [] [r] s).
Proof.
  unfold add_feature, modify, pushed, set_unflushed. rewrite !app_nil_r.
  reflexivity.
Qed.

Lemma for_each_add_spec {A} (f : A -> ProductSpec.t) l s :
  for_each l (fun x => add_spec (f x)) s = (Ok tt, pushed (map f l) [] [] [] s).
Proof.
  revert s. induction l as [|x l IH]; intros s; simpl.
  - rewrite pushed_nil. reflexivity.
  - unfold bind. rewrite add_spec_run, IH, pushed_pushed. reflexivity.
Qed.

Lemma for_each_add_technology {A} (f : A -> ProductTechnology.t) l s :
  for_each l (fun x => add_technology (f x)) s
  = (Ok tt, pushed [] [] (map f l) [] s).
Proof.
  revert s. induction l as [|x l IH]; intros s; simpl.
  - rewrite pushed_nil. reflexivity.
  - unfold bind. rewrite add_technology_run, IH, pushed_pushed. reflexivity.
Qed.

Lemma for_each_add_feature {A} (f : A -> ProductFeature.t) l s :
  for_each l (fun x => add_feature (f x)) s
  = (Ok tt, pushed [] [] [] (map f l) s).
Proof.
  revert s. induction l as [|x l IH]; intros s; simpl.
  - rewrite pushed_nil. reflexivity.
  - unfold bind. rewrite add_feature_run, IH, pushed_pushed. reflexivity.
Qed.

Lemma for_each_add_price uid prices s :
  for_each prices (fun rp =>
    if truthy (snd rp)
    then add_price (ProductPrice.mk uid (fst rp) (snd rp))
    else ret tt) s
  = (Ok tt, pushed [] (price_rows uid prices) [] [] s).
Proof.
  revert s. induction prices as [|rp l IH]; intros s.
  - simpl. rewrite pushed_nil. reflexivity.
  - cbn [for_each]. unfold bind, price_rows. cbn [List.filter].
    destruct (truthy (snd rp)).
    + rewrite add_price_run, IH, pushed_pushed. reflexivity.
    + unfold ret. apply IH.
Qed.

(** [add_children] stops at the first extraction that raises, with the rows
    of the earlier ones added. *)
Lemma add_children_run uid product_data s :
  add_children uid product_data s =
  match _extract_specs product_data with
  | Raise e => (Raise e, s)
  | Ok specs =>
    match _extract_prices product_data with
    | Raise e => (Raise e, pushed (map (spec_row uid) specs) [] [] [] s)
    | Ok prices =>
      match _extract_technologies product_data with
      | Raise e =>
          (Raise e, pushed (map (spec_row uid) specs) (price_rows uid prices) [] [] s)
      | Ok technologies =>
        match _extract_features product_data with
        | Raise e =>
            (Raise e, pushed (map (spec_row uid) specs) (price_rows uid prices)
                        (map (technology_row uid) technologies) [] s)
        | Ok features =>
            (Ok tt, pushed (map (spec_row uid) specs) (price_rows uid prices)
                      (map (technology_row uid) technologies)
                      (map (feature_row uid) features) s)
        end
      end
    end
  end.
Proof.
  unfold add_children, bind, lift.
  destruct (_extract_specs product_data) as [specs|e]; [|reflexivity].
  rewrite for_each_add_spec.
  destruct (_extract_prices product_data) as [prices|e]; [|reflexivity].
  rewrite for_each_add_price, pushed_pushed. simpl.
  destruct (_extract_technologies product_data) as [technologies|e];
    [|rewrite app_nil_r; reflexivity].
  rewrite for_each_add_technology, pushed_pushed. simpl.
  destruct (_extract_features product_data) as [features|e];
    [|rewrite !app_nil_r; reflexivity].
  rewrite for_each_add_feature, pushed_pushed. simpl.
  rewrite !app_nil_r. reflexivity.
Qed.

Lemma held_held p q s : Product.uid p = Product.uid q -> held q (held p s) = held q s.
Proof.
  intros H. unfold held, set_unflushed. simpl. rewrite H, insert_insert_eq.
  reflexivity.
Qed.

(** A successful [_update_product]: what it needs and the session it
    leaves. *)
Lemma update_product_run product kvs s description specs prices technologies features :
  _clean_html (payload_or kvs "description" (Product.description product))
  = Ok description ->
  _extract_specs (JObj kvs) = Ok specs ->
  _extract_prices (JObj kvs) = Ok prices ->
  _extract_technologies (JObj kvs) = Ok technologies ->
  _extract_features (JObj kvs) = Ok features ->
  _update_product product (JObj kvs) s
  = (Ok (Product.uid product),
     after_commit
       (pushed (map (spec_row (Product.uid product)) specs)
               (price_rows (Product.uid product) prices)
               (map (technology_row (Product.uid product)) technologies)
               (map (feature_row (Product.uid product)) features)
               (deleted (Product.uid product)
                  (held (updated product kvs description) s)))).
Proof.
  intros Hd Hs Hp Ht Hf.
  unfold _update_product, bind, lift. simpl.
  unfold payload_or in Hd. rewrite Hd. simpl.
  rewrite add_children_run, Hs, Hp, Ht, Hf. simpl.
  unfold ret, after_commit, pushed, deleted, held, set_unflushed, set_tx. simpl.
  rewrite !insert_insert_eq.
  reflexivity.
Qed.

End UpsertFacts.

(** ** The run *)

Section RunFacts.

Import Run RunSpec.

Context {St : Type}.
Variable get_paginated_products : Z -> M St json.
Variable collect_product : json -> M St (option string).

Lemma product_loop_nil limit (s : run_state St) :
  product_loop collect_product limit [] s = (Ok tt, s).
Proof. reflexivity. Qed.

Lemma product_loop_cons limit product_data rest (s : run_state St) :
  product_loop (St:=St) collect_product limit (product_data :: rest) s =
  if limit_reached limit (length (collected_uids s)) then (Ok tt, s)
  else
    match dict_get product_data "url" JNull with
    | Raise e => (Raise e, s)
    | Ok url =>
        if negb (truthy url) then product_loop collect_product limit rest s
        else
          match set_mem url (product_urls s) with
          | Raise e => (Raise e, s)
          | Ok true => product_loop collect_product limit rest s
          | Ok false =>
              product_loop collect_product limit rest
                (fetched collect_product url s)
          end
    end.
Proof.
  cbn [product_loop]. unfold bind at 1. unfold gets at 1.
  destruct (limit_reached limit (length (collected_uids s))); [reflexivity|].
  unfold bind at 1. unfold lift at 1.
  destruct (dict_get product_data "url" JNull) as [url|e]; [|reflexivity].
  unfold bind at 1.
  destruct (truthy url); cbn [negb]; [|reflexivity].
  unfold bind at 1. unfold gets at 1. unfold lift at 1.
  destruct (set_mem url (product_urls s)) as [[|]|e]; [reflexivity| |reflexivity].
  unfold bind at 1. unfold add_url at 1. unfold modify at 1.
  unfold bind at 1. unfold try_except at 1. unfold bind at 1.
  unfold in_world at 1. cbn [world collected_uids product_urls].
  unfold fetched.
  destruct (collect_product url (world s)) as [[[uid|]|e] w]; try reflexivity.
  cbn [truthy]. destruct (String.eqb uid ""); reflexivity.
Qed.

Lemma grid_products_read response :
  rbind (dict_get response "data" (JObj [])) (fun data =>
  rbind (dict_get data "paginatedProductGrid" (JObj [])) (fun grid =>
  rbind (dict_get grid "products" (JList [])) (fun products_data =>
  rbind (dict_get response "data" (JObj [])) (fun data' =>
  rbind (dict_get data' "paginatedProductGrid" (JObj [])) (fun grid' =>
  rbind (dict_get grid' "total" (JInt 0)) (fun total =>
  rbind (py_len products_data) (fun _ =>
  py_iter products_data)))))))
  = grid_products response.
Proof.
  unfold grid_products.
  destruct (dict_get response "data" (JObj [])) as [data|e]; [|reflexivity]. simpl.
  destruct (dict_get data "paginatedProductGrid" (JObj [])) as [grid|e];
    [|reflexivity]. simpl.
  destruct grid; try reflexivity. simpl.
  unfold py_len. destruct (py_iter _); reflexivity.
Qed.

Lemma collect_category_run limit category (s : run_state St) :
  collect_category get_paginated_products collect_product limit category s =
  match get_paginated_products category (world s) with
  | (Raise e, w) => (Raise e, with_world w s)
  | (Ok response, w) =>
      match grid_products response with
      | Raise e => (Raise e, with_world w s)
      | Ok products => product_loop collect_product limit products (with_world w s)
      end
  end.
Proof.
  unfold collect_category, bind at 1, in_world at 1, with_world.
  destruct (get_paginated_products category (world s)) as [[response|e] w];
    [|reflexivity].
  rewrite <- grid_products_read. unfold bind, lift.
  destruct (dict_get response "data" (JObj [])) as [data|e]; [|reflexivity]. simpl.
  destruct (dict_get data "paginatedProductGrid" (JObj [])) as [grid|e];
    [|reflexivity]. simpl.
  destruct (dict_get grid "products" (JList [])) as [products_data|e];
    [|reflexivity]. simpl.
  destruct (dict_get grid "total" (JInt 0)) as [total|e]; [|reflexivity]. simpl.
  destruct (py_len products_data) as [n|e]; [|reflexivity]. simpl.
  destruct (py_iter products_data) as [products|e]; reflexivity.
Qed.

Lemma category_loop_cons limit category rest (s : run_state St) :
  category_loop get_paginated_products collect_product limit (category :: rest) s =
  if limit_reached limit (length (collected_uids s)) then (Ok tt, s)
  else
    category_loop get_paginated_products collect_product limit rest
      (snd (collect_category get_paginated_products collect_product
              limit category s)).
Proof.
  cbn [category_loop]. unfold bind at 1. unfold gets at 1.
  destruct (limit_reached limit (length (collected_uids s))); [reflexivity|].
  unfold bind at 1. unfold try_except at 1.
  destruct (collect_category _ _ limit category s) as [[[]|e] s']; reflexivity.
Qed.

(** The category loop catches what a category raises. *)
Lemma category_loop_returns limit categories (s : run_state St) :
  fst (category_loop get_paginated_products collect_product limit categories s)
  = Ok tt.
Proof.
  revert s. induction categories as [|category rest IH]; intros s; [reflexivity|].
  rewrite category_loop_cons.
  destruct (limit_reached limit (length (collected_uids s))); [reflexivity|].
  apply IH.
Qed.

(** The rule of the two loops: a property of the state that every grid
    query and every collected product keep, when they are reached with the
    limit not met, holds at the end of the run. *)
Section Invariant.

Variable limit : option Z.
Variable I : run_state St -> Prop.

Hypothesis I_grid : forall category s,
  I s -> limit_reached limit (length (collected_uids s)) = false ->
  I (with_world (snd (get_paginated_products category (world s))) s).

Hypothesis I_fetched : forall url s,
  I s -> limit_reached limit (length (collected_uids s)) = false ->
  truthy url = true -> set_mem url (product_urls s) = Ok false ->
  I (fetched collect_product url s).

Lemma product_loop_invariant products : forall s,
  I s -> I (snd (product_loop collect_product limit products s)).
Proof.
  induction products as [|product_data rest IH]; intros s Hs; [exact Hs|].
  rewrite product_loop_cons.
  destruct (limit_reached limit (length (collected_uids s))) eqn:Hl; [exact Hs|].
  destruct (dict_get product_data "url" JNull) as [url|e]; [|exact Hs].
  destruct (truthy url) eqn:Hu; cbn [negb]; [|apply IH, Hs].
  destruct (set_mem url (product_urls s)) as [[|]|e] eqn:Hm;
    [apply IH, Hs | | exact Hs].
  apply IH, I_fetched; assumption.
Qed.

Lemma category_loop_invariant categories : forall s,
  I s ->
  I (snd (category_loop get_paginated_products collect_product limit categories s)).
Proof.
  induction categories as [|category rest IH]; intros s Hs; [exact Hs|].
  rewrite category_loop_cons.
  destruct (limit_reached limit (length (collected_uids s))) eqn:Hl; [exact Hs|].
  apply IH. rewrite collect_category_run.
  pose proof (I_grid category s Hs Hl) as Hg.
  destruct (get_paginated_products category (world s)) as [[response|e] w];
    [|exact Hg].
  destruct (grid_products response) as [products|e]; [|exact Hg].
  apply product_loop_invariant, Hg.
Qed.

End Invariant.

End RunFacts.

(** The run of [test_collect_products] in [tests/test_collector.py]: the
    grid has two products and [collect_product] is patched to return
    ["test-uid-1"] for both. It is called twice; the uids are a set, so the
    returned list holds ["test-uid-1"] once. *)
Example test_collect_products :
  Trace.collect_products (St := unit)
    (fun _ =>
       ret (JObj [("data", JObj [("paginatedProductGrid", JObj [
              ("products", JList [
                 JObj [("uid", JStr "test-uid-1"); ("url", JStr "/test-product-1")];
                 JObj [("uid", JStr "test-uid-2"); ("url", JStr "/test-product-2")]]);
              ("total", JInt 2)])])]))
    (fun _ => ret (Some "test-uid-1"))
    (Some [1]) None tt
  = (Ok ["test-uid-1"],
     (tt, [Trace.GridQuery 1;
           Trace.DetailFetch (JStr "/test-product-1") (Ok (Some "test-uid-1"));
           Trace.DetailFetch (JStr "/test-product-2") (Ok (Some "test-uid-1"))])).
Proof. reflexivity. Qed.

(** ** The calls of a run *)

Section TraceFacts.

Import Run RunSpec Trace.

Lemma eqb_sym a b : Py.eqb a b = Py.eqb b a.
Proof.
  destruct a as [|x|x|x|x|x], b as [|y|y|y|y|y]; simpl; try reflexivity.
  - destruct x, y; reflexivity.
  - apply Z.eqb_sym.
  - apply String.eqb_sym.
Qed.

Lemma eqb_trans a b c :
  Py.eqb a b = true -> Py.eqb a c = true -> Py.eqb b c = true.
Proof.
  destruct a as [|x|x|x|x|x], b as [|y|y|y|y|y]; cbn -[Z.eqb String.eqb];
    try discriminate;
    destruct c as [|z|z|z|z|z]; cbn -[Z.eqb String.eqb]; try discriminate;
    try reflexivity;
    repeat match goal with
           | b : bool |- _ => destruct b
           end;
    cbn -[Z.eqb String.eqb]; try discriminate; try reflexivity;
    rewrite ?Z.eqb_eq, ?String.eqb_eq; try congruence; try lia.
Qed.

Lemma distinct_snoc l x :
  distinct l -> existsb (Py.eqb x) l = false -> distinct (l ++ [x]).
Proof.
  induction l as [|y l IH]; simpl; [auto|].
  intros [Hy Hl] Hx. apply orb_false_iff in Hx as [Hxy Hx].
  split; [|apply IH; assumption].
  rewrite existsb_app, Hy. simpl. rewrite eqb_sym, Hxy. reflexivity.
Qed.

Lemma filter_none {A} (f : A -> bool) l :
  (forall y, In y l -> f y = false) -> List.filter f l = [].
Proof.
  induction l as [|x l IH]; simpl; [reflexivity|].
  intros H. rewrite (H x) by auto. apply IH. auto.
Qed.

Lemma distinct_at_most_once l url :
  distinct l -> (length (List.filter (Py.eqb url) l) <= 1)%nat.
Proof.
  induction l as [|x l IH]; simpl; [lia|].
  intros [Hx Hl]. destruct (Py.eqb url x) eqn:E; [|apply IH, Hl].
  assert (List.filter (Py.eqb url) l = []) as ->; [|simpl; lia].
  apply filter_none. intros y Hy.
  destruct (Py.eqb url y) eqn:Ey; [|reflexivity].
  assert (existsb (Py.eqb x) l = true); [|congruence].
  apply existsb_exists. exists y. split; [exact Hy|].
  apply (eqb_trans url); assumption.
Qed.

Lemma fetched_urls_app t t' :
  fetched_urls (t ++ t') = (fetched_urls t ++ fetched_urls t')%list.
Proof. apply flat_map_app. Qed.

Lemma queried_app t t' : queried (t ++ t') = (queried t ++ queried t')%list.
Proof. apply flat_map_app. Qed.

Lemma created_or_updated_snoc t e :
  created_or_updated (t ++ [e])
  = match uid_of e with
    | Some uid => set_add uid (created_or_updated t)
    | None => created_or_updated t
    end.
Proof. unfold created_or_updated. rewrite fold_left_app. reflexivity. Qed.

Lemma fetches_of_length url t :
  length (fetches_of url t) = length (List.filter (Py.eqb url) (fetched_urls t)).
Proof.
  induction t as [|e t IH]; [reflexivity|].
  unfold fetches_of in *. destruct e as [c|u r]; simpl; [exact IH|].
  destruct (Py.eqb url u); simpl; rewrite IH; reflexivity.
Qed.

Lemma set_add_In uid uids x : In x (set_add uid uids) <-> x = uid \/ In x uids.
Proof.
  unfold set_add. destruct (existsb (String.eqb uid) uids) eqn:E.
  - split; [auto|]. intros [->|H]; [|exact H].
    apply existsb_exists in E as (y & Hy & Ey). apply String.eqb_eq in Ey.
    subst y. exact Hy.
  - split.
    + intros H. apply in_app_or in H as [H|[<-|[]]]; auto.
    + intros [->|H]; apply in_or_app; simpl; auto.
Qed.

Lemma NoDup_snoc {A} (l : list A) x : List.NoDup l -> ~ In x l -> List.NoDup (l ++ [x]).
Proof.
  induction 1 as [|y l Hy Hl IH]; simpl; intros Hx.
  - apply List.NoDup_cons; [intros [] | apply List.NoDup_nil].
  - apply List.NoDup_cons.
    + intros H. apply in_app_or in H as [H|[<-|[]]]; [exact (Hy H)|].
      apply Hx. auto.
    + apply IH. intros H. apply Hx. auto.
Qed.

Lemma set_add_NoDup uid uids : List.NoDup uids -> List.NoDup (set_add uid uids).
Proof.
  intros H. unfold set_add. destruct (existsb (String.eqb uid) uids) eqn:E; [exact H|].
  apply NoDup_snoc; [exact H|]. intros Hx.
  assert (existsb (String.eqb uid) uids = true); [|congruence].
  apply existsb_exists. exists uid. split; [exact Hx | apply String.eqb_refl].
Qed.

Lemma set_add_length uid uids :
  (length (set_add uid uids) <= S (length uids))%nat.
Proof.
  unfold set_add. destruct (existsb (String.eqb uid) uids); [lia|].
  rewrite length_app. simpl. lia.
Qed.

Lemma created_or_updated_NoDup t : List.NoDup (created_or_updated t).
Proof.
  induction t as [|e t IH] using rev_ind; [apply List.NoDup_nil|].
  rewrite created_or_updated_snoc.
  destruct (uid_of e); [apply set_add_NoDup|]; exact IH.
Qed.

Lemma created_or_updated_In t e uid :
  In e t -> uid_of e = Some uid -> In uid (created_or_updated t).
Proof.
  induction t as [|e' t IH] using rev_ind; [intros []|].
  intros Hin Hu. rewrite created_or_updated_snoc.
  apply in_app_iff in Hin as [Hin|[<-|[]]].
  - specialize (IH Hin Hu). destruct (uid_of e'); [apply set_add_In; auto|exact IH].
  - rewrite Hu. apply set_add_In. auto.
Qed.

Lemma split_snoc {A} (t t1 t2 : list A) (x e : A) :
  (t ++ [x] = t1 ++ e :: t2)%list ->
  (t1 = t /\ e = x /\ t2 = [])
  \/ exists t2', t2 = (t2' ++ [x])%list /\ t = (t1 ++ e :: t2')%list.
Proof.
  destruct t2 as [|y t2 _] using rev_ind.
  - intros H. apply app_inj_tail in H as [-> ->]. left. auto.
  - intros H. right. exists t2.
    change (t1 ++ e :: t2 ++ [y])%list with (t1 ++ (e :: t2) ++ [y])%list in H.
    rewrite app_assoc in H. apply app_inj_tail in H as [-> ->]. auto.
Qed.

Lemma within_limit_snoc limit t e :
  within_limit limit t ->
  limit_reached limit (length (created_or_updated t)) = false ->
  within_limit limit (t ++ [e]).
Proof.
  intros Ht Hl t1 e' t2 H.
  apply split_snoc in H as [(-> & _ & _)|(t2' & _ & ->)]; [exact Hl|].
  exact (Ht _ _ _ eq_refl).
Qed.

(** The size of the result under a positive limit. *)
Lemma within_limit_length n t :
  0 < n -> within_limit (Some n) t ->
  Z.of_nat (length (created_or_updated t)) <= n.
Proof.
  intros Hn H. destruct t as [|e t _] using rev_ind; [simpl; lia|].
  specialize (H t e [] eq_refl). rewrite created_or_updated_snoc.
  unfold limit_reached in H. apply andb_false_iff in H as [H|H].
  - apply negb_false_iff, Z.eqb_eq in H. lia.
  - apply Z.leb_gt in H.
    destruct (uid_of e) as [uid|]; [|lia].
    pose proof (set_add_length uid (created_or_updated t)). lia.
Qed.

Context {St : Type}.
Variable get_paginated_products : Z -> M St json.
Variable collect_product : json -> M St (option string).

Lemma observed_grid limit category s :
  observed limit s ->
  limit_reached limit (length (collected_uids s)) = false ->
  observed limit
    (with_world (snd (traced_grid get_paginated_products category (world s))) s).
Proof.
  intros (Hu & Hd & Hc & Hl) Hn. unfold traced_grid.
  destruct (get_paginated_products category (fst (world s))) as [r w].
  unfold observed, with_world. simpl.
  rewrite fetched_urls_app, created_or_updated_snoc. simpl. rewrite app_nil_r.
  repeat split; try assumption.
  apply within_limit_snoc; [exact Hl | rewrite <- Hc; exact Hn].
Qed.

Lemma observed_fetched limit url s :
  observed limit s ->
  limit_reached limit (length (collected_uids s)) = false ->
  truthy url = true -> set_mem url (product_urls s) = Ok false ->
  observed limit (fetched (traced_detail collect_product) url s).
Proof.
  intros (Hu & Hd & Hc & Hl) Hn _ Hm. unfold fetched, traced_detail.
  destruct (collect_product url (fst (world s))) as [r w].
  unfold observed. simpl.
  rewrite fetched_urls_app, created_or_updated_snoc. simpl.
  split; [rewrite Hu; reflexivity|]. split.
  - apply distinct_snoc; [exact Hd|].
    unfold set_mem in Hm. destruct (hashable url); [|discriminate].
    injection Hm as Hm. exact Hm.
  - split.
    + rewrite <- Hc. destruct r as [[uid|]|e]; try reflexivity.
      destruct (String.eqb uid ""); reflexivity.
    + apply within_limit_snoc; [exact Hl | rewrite <- Hc; exact Hn].
Qed.

(** The observations hold at the end of every run. *)
Lemma collect_products_observed categories limit w :
  exists s,
    Trace.collect_products get_paginated_products collect_product categories limit w
    = (Ok (collected_uids s), world s)
    /\ observed limit s.
Proof.
  unfold Trace.collect_products, Run.collect_products.
  set (cats := match categories with Some l => l | None => default_categories end).
  pose proof (category_loop_returns (traced_grid get_paginated_products)
                (traced_detail collect_product) limit cats (mk [] [] (w, []))) as Hr.
  pose proof (category_loop_invariant (traced_grid get_paginated_products)
                (traced_detail collect_product) limit (observed limit)
                (observed_grid limit) (observed_fetched limit) cats
                (mk [] [] (w, []))) as Hi.
  destruct (category_loop _ _ limit cats (mk [] [] (w, []))) as [r s].
  simpl in Hr, Hi. subst r. exists s. split; [reflexivity|].
  apply Hi. repeat split. intros t1 e t2 H. destruct t1; discriminate.
Qed.

(** Noting the calls changes nothing else. *)
Lemma product_loop_erases limit products : forall s' s,
  erases s' s ->
  fst (product_loop (traced_detail collect_product) limit products s')
  = fst (product_loop collect_product limit products s)
  /\ erases (snd (product_loop (traced_detail collect_product) limit products s'))
            (snd (product_loop collect_product limit products s)).
Proof.
  induction products as [|product_data rest IH]; intros s' s Hs;
    [split; [reflexivity|exact Hs]|].
  rewrite !product_loop_cons.
  destruct Hs as (Hc & Hu & Hw). rewrite Hc, Hu.
  destruct (limit_reached limit (length (collected_uids s)));
    [split; [reflexivity|repeat split; assumption]|].
  destruct (dict_get product_data "url" JNull) as [url|e];
    [|split; [reflexivity|repeat split; assumption]].
  destruct (truthy url); cbn [negb]; [|apply IH; repeat split; assumption].
  destruct (set_mem url (product_urls s)) as [[|]|e];
    [apply IH; repeat split; assumption
    | |split; [reflexivity|repeat split; assumption]].
  apply IH. unfold fetched, traced_detail. rewrite Hw, Hc, Hu.
  destruct (collect_product url (world s)) as [r w]. repeat split.
Qed.

Lemma category_loop_erases limit categories : forall s' s,
  erases s' s ->
  erases
    (snd (category_loop (traced_grid get_paginated_products)
            (traced_detail collect_product) limit categories s'))
    (snd (category_loop get_paginated_products collect_product limit categories s)).
Proof.
  induction categories as [|category rest IH]; intros s' s Hs; [exact Hs|].
  rewrite !category_loop_cons.
  pose proof Hs as (Hc & Hu & Hw). rewrite Hc.
  destruct (limit_reached limit (length (collected_uids s))); [exact Hs|].
  apply IH. rewrite !collect_category_run. unfold traced_grid. rewrite Hw.
  destruct (get_paginated_products category (world s)) as [[response|e] w];
    [|repeat split; assumption].
  destruct (grid_products response) as [products|e]; [|repeat split; assumption].
  apply product_loop_erases. repeat split; assumption.
Qed.

(** A run that notes its calls returns what the run returns and leaves
    the state that the run leaves. *)
Lemma traced_run_erases categories limit w :
  fst (Trace.collect_products get_paginated_products collect_product
         categories limit w)
  = fst (Run.collect_products get_paginated_products collect_product
           categories limit w)
  /\ fst (snd (Trace.collect_products get_paginated_products collect_product
                 categories limit w))
     = snd (Run.collect_products get_paginated_products collect_product
              categories limit w).
Proof.
  unfold Trace.collect_products, Run.collect_products.
  set (cats := match categories with Some l => l | None => default_categories end).
  pose proof (category_loop_erases limit cats (mk [] [] (w, [])) (mk [] [] w)
                (conj eq_refl (conj eq_refl eq_refl))) as (Hc & _ & Hw).
  pose proof (category_loop_returns (traced_grid get_paginated_products)
                (traced_detail collect_product) limit cats (mk [] [] (w, []))) as H1.
  pose proof (category_loop_returns get_paginated_products collect_product
                limit cats (mk [] [] w)) as H2.
  destruct (category_loop (traced_grid _) _ limit cats _) as [r' s'].
  destruct (category_loop get_paginated_products _ limit cats _) as [r s].
  simpl in *. subst r r'. simpl. rewrite Hc, Hw. split; reflexivity.
Qed.

End TraceFacts.




(** C4, as the code has it. On a payload whose ["feature_details"] is a
    list of groups, [_extract_features] gives one row per item whose content
    is not empty, in order, under the title of its group, and the row holds
    the item's content as it came: no HTML stripping is applied to it. *)
Theorem extract_features_flattens
    (product_data details : json) (feature_details : list json)
    (groups : list (option string * list string)) :
  dict_get product_data "details" (JObj []) = Ok details ->
  dict_get details "feature_details" (JList []) = Ok (JList feature_details) ->
  Forall2 FeatureSpec.group_view feature_details groups ->
  _extract_features product_data = Ok (FeatureSpec.rows groups).
Proof.
  intros Hd Hf Hg. unfold _extract_features. rewrite Hd. simpl. rewrite Hf. simpl.
  apply gather_groups, Hg.
Qed.

Lemma extract_features_flattens_witness :
  _extract_features Scenario.features_payload
  = Ok [ProductFeatureSchema.mk (Some "Ski Characteristics") "Glide";
        ProductFeatureSchema.mk (Some "Ski Characteristics") "<b>Lightness</b>";
        ProductFeatureSchema.mk None "Stability"].
Proof.
  refine (extract_features_flattens Scenario.features_payload _ _
            [(Some "Ski Characteristics", ["Glide"; ""; "<b>Lightness</b>"]);
             (None, ["Stability"])]
            eq_refl eq_refl _).
  repeat constructor.
  - eexists _, _. repeat split; try reflexivity; [constructor|].
    repeat constructor; eexists; (split; [reflexivity|]); left; reflexivity.
  - eexists _, _. repeat split; try reflexivity; [constructor|].
    repeat constructor; eexists; (split; [reflexivity|]); left; reflexivity.
Defined.

(** C4, as stated, fails: the content of a feature keeps its HTML tags,
    where stripping would have given ["Lightness"]. *)
Lemma extract_features_keeps_tags :
  _extract_features
    (JObj [("details", JObj [("feature_details", JList [
       JObj [("group_title", JStr "Ski Characteristics");
             ("group", JList [JObj [("content", JStr "<b>Lightness</b>")]])]])])])
  = Ok [ProductFeatureSchema.mk (Some "Ski Characteristics") "<b>Lightness</b>"]
  /\ _clean_html (JStr "<b>Lightness</b>") = Ok "Lightness".
Proof. split; reflexivity. Qed.

(** C5. A technology field that is one object and the same object in a
    one-element list give the same result, whatever the object; the object
    [{"title": "T", "content": "<p>C</p>"}] gives one row with content
    ["C"]; an object without a title, whose content is a string or is
    absent, gives no row in either shape; and a list of entries gives one
    row per entry that has a title, with its content stripped. *)
Theorem extract_technologies_shape
    (pd1 pd2 details1 details2 : json) (tech : list (string * json)) :
  dict_get pd1 "details" (JObj []) = Ok details1 ->
  dict_get details1 "technology" (JList []) = Ok (JObj tech) ->
  dict_get pd2 "details" (JObj []) = Ok details2 ->
  dict_get details2 "technology" (JList []) = Ok (JList [JObj tech]) ->
  _extract_technologies pd1 = _extract_technologies pd2
  /\ (tech = [("title", JStr "T"); ("content", JStr "<p>C</p>")] ->
      _extract_technologies pd1 = Ok [ProductTechnologySchema.mk "T" "C"])
  /\ (lookup_key "title" tech = None ->
      (exists c, lookup_key "content" tech = Some (JStr c))
      \/ lookup_key "content" tech = None ->
      _extract_technologies pd1 = Ok [] /\ _extract_technologies pd2 = Ok [])
  /\ (forall (pd details : json) (l : list json) (entries : list (string * string)),
        dict_get pd "details" (JObj []) = Ok details ->
        dict_get details "technology" (JList []) = Ok (JList l) ->
        Forall2 TechnologySpec.entry_view l entries ->
        _extract_technologies pd = Ok (TechnologySpec.rows entries)).
Proof.
  intros H1 H1' H2 H2'.
  assert (E1 : _extract_technologies pd1 = technology_entry (JObj tech)).
  { unfold _extract_technologies. rewrite H1. simpl. rewrite H1'. reflexivity. }
  assert (E2 : _extract_technologies pd2 = technology_entry (JObj tech)).
  { unfold _extract_technologies. rewrite H2. simpl. rewrite H2'. simpl.
    apply gather_one. }
  rewrite E1, E2. split; [reflexivity|]. split; [|split].
  - intros ->. reflexivity.
  - intros Ht Hc. unfold technology_entry. simpl. rewrite Ht.
    destruct Hc as [[c Hc]|Hc]; rewrite Hc; simpl.
    + destruct c; split; reflexivity.
    + split; reflexivity.
  - intros pd details l entries Hd Hl Hv.
    unfold _extract_technologies. rewrite Hd. simpl. rewrite Hl.
    apply gather_technologies, Hv.
Qed.

Lemma extract_technologies_shape_witness :
  _extract_technologies
    (JObj [("details", JObj [("technology",
       JObj [("title", JStr "T"); ("content", JStr "<p>C</p>")])])])
  = _extract_technologies
      (JObj [("details", JObj [("technology",
         JList [JObj [("title", JStr "T"); ("content", JStr "<p>C</p>")]])])])
  /\ _extract_technologies
       (JObj [("details", JObj [("technology",
          JObj [("title", JStr "T"); ("content", JStr "<p>C</p>")])])])
     = Ok [ProductTechnologySchema.mk "T" "C"].
Proof.
  pose proof (extract_technologies_shape
    (JObj [("details", JObj [("technology",
       JObj [("title", JStr "T"); ("content", JStr "<p>C</p>")])])])
    (JObj [("details", JObj [("technology",
       JList [JObj [("title", JStr "T"); ("content", JStr "<p>C</p>")]])])])
    _ _ _ eq_refl eq_refl eq_refl eq_refl) as (Hsame & Hrow & _ & _).
  split; [exact Hsame | exact (Hrow eq_refl)].
Defined.

(** C8. [execute] raises a [RequestException] when the request gets no
    response or an HTTP error status; when the response is a JSON object it
    raises [GraphQLError], carrying the value of ["errors"], exactly when
    the object has that field, and returns the object otherwise, so that an
    empty result comes back as a value and not as an error. *)
Theorem execute_distinguishes_errors
    (post : json -> GraphQL.http_outcome) (query : string)
    (variables operation_name : json) :
  let outcome := post (GraphQL.request_payload query variables operation_name) in
  let r := GraphQL.execute post query variables operation_name in
  (outcome = GraphQL.NoResponse -> r = Raise (RequestException ConnectionError))
  /\ (forall status body,
        outcome = GraphQL.Response status body ->
        400 <= status < 600 ->
        r = Raise (RequestException (HTTPError status)))
  /\ (forall status kvs errors,
        outcome = GraphQL.Response status (Some (JObj kvs)) ->
        status < 400 \/ 600 <= status ->
        lookup_key "errors" kvs = Some errors ->
        r = Raise (GraphQLError errors))
  /\ (forall status kvs,
        outcome = GraphQL.Response status (Some (JObj kvs)) ->
        status < 400 \/ 600 <= status ->
        lookup_key "errors" kvs = None ->
        r = Ok (JObj kvs)).
Proof.
  intros outcome r. subst r. unfold GraphQL.execute. fold outcome.
  repeat split.
  - intros ->. reflexivity.
  - intros status body -> Hs.
    replace ((400 <=? status) && (status <? 600)) with true by lia. reflexivity.
  - intros status kvs errors -> Hs He.
    replace ((400 <=? status) && (status <? 600)) with false by lia.
    simpl. rewrite He. reflexivity.
  - intros status kvs -> Hs He.
    replace ((400 <=? status) && (status <? 600)) with false by lia.
    simpl. rewrite He. reflexivity.
Qed.

Lemma execute_distinguishes_errors_witness :
  GraphQL.execute
    (fun _ => GraphQL.Response 200
       (Some (JObj [("errors", JList [JObj [("message", JStr "Unknown product")]])])))
    "query GetProduct" (JObj [("url", JStr "/ski-x")]) (JStr "GetProduct")
  = Raise (GraphQLError (JList [JObj [("message", JStr "Unknown product")]]))
  /\ GraphQL.execute
       (fun _ => GraphQL.Response 200
          (Some (JObj [("data", JObj [("product", JNull)])])))
       "query GetProduct" (JObj [("url", JStr "/ski-x")]) (JStr "GetProduct")
     = Ok (JObj [("data", JObj [("product", JNull)])])
  /\ GraphQL.execute (fun _ => GraphQL.Response 503 None)
       "query GetProduct" (JObj [("url", JStr "/ski-x")]) (JStr "GetProduct")
     = Raise (RequestException (HTTPError 503)).
Proof.
  split; [|split].
  - apply (execute_distinguishes_errors _ _ _ _)
      with (status := 200)
           (kvs := [("errors", JList [JObj [("message", JStr "Unknown product")]])]);
      [reflexivity | left; reflexivity | reflexivity].
  - apply (execute_distinguishes_errors _ _ _ _) with (status := 200);
      [reflexivity | left; reflexivity | reflexivity].
  - apply (execute_distinguishes_errors _ _ _ _) with (body := None);
      [reflexivity | lia].
Defined.

Section UpsertClaims.

Import DbSpec.

Lemma filter_of_other {A} (f : A -> string) uid (l : list A) :
  List.filter (of_uid f uid) (List.filter (other_uid f uid) l) = [].
Proof.
  induction l as [|x l IH]; simpl; [reflexivity|].
  unfold other_uid at 1. destruct (String.eqb (f x) uid) eqn:E; simpl; [exact IH|].
  unfold of_uid at 1. rewrite E. exact IH.
Qed.

Lemma filter_of_own {A} (f : A -> string) uid (l : list A) :
  Forall (fun x => f x = uid) l -> List.filter (of_uid f uid) l = l.
Proof.
  induction 1 as [|x l Hx _ IH]; simpl; [reflexivity|].
  unfold of_uid at 1. rewrite Hx, String.eqb_refl, IH. reflexivity.
Qed.

Lemma rows_own {A B} (f : B -> string) (g : A -> B) uid (l : list A) :
  (forall x, f (g x) = uid) -> Forall (fun y => f y = uid) (map g l).
Proof.
  intros H. induction l as [|x l IH]; simpl; constructor; [apply H | exact IH].
Qed.




(** What a successful [_update_product] has extracted. *)
Lemma update_product_ok product kvs s u s' :
  _update_product product (JObj kvs) s = (Ok u, s') ->
  exists description specs prices technologies features,
    _clean_html (payload_or kvs "description" (Product.description product))
    = Ok description
    /\ _extract_specs (JObj kvs) = Ok specs
    /\ _extract_prices (JObj kvs) = Ok prices
    /\ _extract_technologies (JObj kvs) = Ok technologies
    /\ _extract_features (JObj kvs) = Ok features.
Proof.
  unfold _update_product, bind, lift. simpl. unfold payload_or.
  destruct (_clean_html _) as [description|e]; [|discriminate]. simpl.
  rewrite add_children_run.
  destruct (_extract_specs (JObj kvs)) as [specs|e]; [|discriminate].
  destruct (_extract_prices (JObj kvs)) as [prices|e]; [|discriminate].
  destruct (_extract_technologies (JObj kvs)) as [technologies|e]; [|discriminate].
  destruct (_extract_features (JObj kvs)) as [features|e]; [|discriminate].
  intros _. eauto 10.
Qed.








(** C1: the code at the failing input. The catalog lists ["/ski-x"] and
    ["/ski-y"] in category 5; the payload of ["/ski-x"], a product already
    stored, has [null] for ["details"], so that its update raises in
    [_extract_technologies], after the root attributes were assigned, the
    four deletes sent and the new specs and prices added. Nothing is
    committed by that call and nothing is rolled back: the commit of
    ["/ski-y"] makes the half-done update durable. *)
Theorem failed_update_is_committed_with_the_next_product :
  let catalog :=
    Scenario.collect_product [(5, ["/ski-x"; "/ski-y"])]
      [("/ski-x", Scenario.ski_x_without_details); ("/ski-y", Scenario.ski_y)] in
  let after_x := catalog (JStr "/ski-x") (clean Scenario.stored) in
  let run :=
    Scenario.collect_products [(5, ["/ski-x"; "/ski-y"])]
      [("/ski-x", Scenario.ski_x_without_details); ("/ski-y", Scenario.ski_y)]
      (Some [5]) None (clean Scenario.stored) in
  (* the failed update returns no uid and commits nothing... *)
  fst after_x = Ok None
  /\ committed (snd after_x) = Scenario.stored
  (* ...but leaves its deletes and its new rows in the session *)
  /\ technologies_of "abc123" (tx (snd after_x)) = []
  /\ specs_of "abc123" (unflushed (snd after_x))
     = [ProductSpec.mk "abc123" "len" "Length" (Some "175cm")]
  (* the run goes on, and the next commit takes them along *)
  /\ fst run = Ok ["def456"]
  /\ products (committed (snd run)) !! "abc123"
     = Some (Product.set_title Scenario.ski_x (JStr "Ski X 2"))
  /\ specs_of "abc123" (committed (snd run))
     = [ProductSpec.mk "abc123" "len" "Length" (Some "175cm")]
  /\ prices_of "abc123" (committed (snd run))
     = [ProductPrice.mk "abc123" "no" (JStr "120 NOK")]
  /\ technologies_of "abc123" (committed (snd run)) = []
  /\ features_of "abc123" (committed (snd run)) = []
  /\ technologies_of "abc123" Scenario.stored
     = [ProductTechnology.mk "abc123" "Carbon" "Carbon core"].
Proof. repeat split. Qed.

End UpsertClaims.

Section RunClaims.

Import Run RunSpec Trace.

Context {St : Type}.
Variable get_paginated_products : Z -> M St json.
Variable collect_product : json -> M St (option string).

(** A run and the run that notes its calls, side by side. *)
Lemma collect_products_traced categories limit (w : St) :
  exists uids trace w',
    Trace.collect_products get_paginated_products collect_product
      categories limit w = (Ok uids, (w', trace))
    /\ Run.collect_products get_paginated_products collect_product
         categories limit w = (Ok uids, w')
    /\ distinct (fetched_urls trace)
    /\ uids = created_or_updated trace
    /\ within_limit limit trace.
Proof.
  destruct (collect_products_observed get_paginated_products collect_product
              categories limit w) as (s & Hrun & Hu & Hd & Hc & Hl).
  pose proof (traced_run_erases get_paginated_products collect_product
                categories limit w) as [E1 E2].
  rewrite Hrun in E1, E2. simpl in E1, E2.
  exists (collected_uids s), (snd (world s)), (fst (world s)).
  split; [rewrite Hrun; destruct (world s); reflexivity|].
  split.
  { destruct (Run.collect_products _ _ categories limit w) as [r w'].
    simpl in E1, E2. subst. reflexivity. }
  split; [rewrite <- Hu; exact Hd|].
  split; assumption.
Qed.

(** Two limits that are reached at the same counts give the same run. *)
Lemma product_loop_limit limit limit' products :
  (forall n, limit_reached limit n = limit_reached limit' n) ->
  forall s : run_state St,
    product_loop collect_product limit products s
    = product_loop collect_product limit' products s.
Proof.
  intros H. induction products as [|product_data rest IH]; intros s; [reflexivity|].
  rewrite !product_loop_cons, H.
  destruct (limit_reached limit' (length (collected_uids s))); [reflexivity|].
  destruct (dict_get product_data "url" JNull) as [url|e]; [|reflexivity].
  destruct (truthy url); cbn [negb]; [|apply IH].
  destruct (set_mem url (product_urls s)) as [[|]|e]; try reflexivity; apply IH.
Qed.

Lemma category_loop_limit limit limit' categories :
  (forall n, limit_reached limit n = limit_reached limit' n) ->
  forall s : run_state St,
    category_loop get_paginated_products collect_product limit categories s
    = category_loop get_paginated_products collect_product limit' categories s.
Proof.
  intros H. induction categories as [|category rest IH]; intros s; [reflexivity|].
  rewrite !category_loop_cons, H.
  destruct (limit_reached limit' (length (collected_uids s))); [reflexivity|].
  rewrite IH. f_equal. f_equal. rewrite !collect_category_run.
  destruct (get_paginated_products category (world s)) as [[response|e] w];
    [|reflexivity].
  destruct (grid_products response) as [products|e]; [|reflexivity].
  apply product_loop_limit, H.
Qed.

(** A run whose limit is never reached queries every category, in order. *)
Lemma category_loop_queries limit categories :
  (forall n, limit_reached limit n = false) ->
  forall s : run_state (St * list event),
    queried
      (snd (world (snd (category_loop (traced_grid get_paginated_products)
                          (traced_detail collect_product) limit categories s))))
    = (queried (snd (world s)) ++ categories)%list.
Proof.
  intros H. induction categories as [|category rest IH]; intros s.
  - simpl. rewrite app_nil_r. reflexivity.
  - rewrite category_loop_cons, H, IH.
    change (category :: rest) with ([category] ++ rest)%list.
    rewrite app_assoc. f_equal.
    rewrite collect_category_run. unfold traced_grid at 1.
    destruct (get_paginated_products category (fst (world s))) as [r w].
    assert (Hq : queried (snd (world
                   (with_world (w, (snd (world s) ++ [GridQuery category])%list) s)))
                 = (queried (snd (world s)) ++ [category])%list).
    { simpl. rewrite queried_app. reflexivity. }
    destruct r as [response|e]; [|exact Hq].
    destruct (grid_products response) as [products|e]; [|exact Hq].
    apply (product_loop_invariant (traced_detail collect_product) limit
             (fun s0 => queried (snd (world s0))
                        = (queried (snd (world s)) ++ [category])%list));
      [|exact Hq].
    intros url s0 Hs0 _ _ _. unfold fetched, traced_detail.
    destruct (collect_product url (fst (world s0))) as [r0 w0]. simpl.
    rewrite queried_app. simpl. rewrite app_nil_r. exact Hs0.
Qed.

End RunClaims.

(** C3. In a run, no url is collected twice, whatever the categories that
    list it: among the calls of [collect_product] at most one has a given
    url. The returned list has no uid twice, and the uid that a call
    created or updated is in it exactly once. *)
Theorem collect_products_dedup {St : Type}
    (get_paginated_products : Z -> M St json)
    (collect_product : json -> M St (option string))
    (categories : option (list Z)) (limit : option Z) (w : St) :
  exists uids trace w',
    Trace.collect_products get_paginated_products collect_product
      categories limit w = (Ok uids, (w', trace))
    /\ Run.collect_products get_paginated_products collect_product
         categories limit w = (Ok uids, w')
    /\ (forall url, (length (Trace.fetches_of url trace) <= 1)%nat)
    /\ List.NoDup uids
    /\ (forall url uid,
          In (Trace.DetailFetch url (Ok (Some uid))) trace -> uid <> "" ->
          count_occ string_dec uids uid = 1%nat).
Proof.
  destruct (collect_products_traced get_paginated_products collect_product
              categories limit w)
    as (uids & trace & w' & Ht & Hr & Hd & Hc & _).
  exists uids, trace, w'. split; [exact Ht|]. split; [exact Hr|].
  split; [|split].
  - intros url. rewrite fetches_of_length. apply distinct_at_most_once, Hd.
  - subst uids. apply created_or_updated_NoDup.
  - intros url uid Hin Hne. subst uids.
    apply NoDup_count_occ'; [apply created_or_updated_NoDup|].
    apply (created_or_updated_In trace _ uid Hin). simpl.
    destruct (String.eqb uid "") eqn:E; [|reflexivity].
    apply String.eqb_eq in E. contradiction.
Qed.

(** ["/ski-x"] and ["/ski-y"] are listed by both categories. *)
Lemma collect_products_dedup_witness :
  exists trace w',
    Scenario.traced_collect_products
      [(5, ["/ski-x"; "/ski-y"]); (6, ["/ski-y"; "/ski-x"])]
      [("/ski-x", JObj Scenario.ski_x_update); ("/ski-y", Scenario.ski_y)]
      (Some [5; 6]) None (clean Scenario.stored)
    = (Ok ["abc123"; "def456"], (w', trace))
    /\ Trace.fetched_urls trace = [JStr "/ski-x"; JStr "/ski-y"]
    /\ (length (Trace.fetches_of (JStr "/ski-x") trace) <= 1)%nat
    /\ count_occ string_dec ["abc123"; "def456"] "abc123" = 1%nat.
Proof.
  destruct (collect_products_dedup
              (ProductCollector.grid_of
                 (Scenario.server
                    [(5, ["/ski-x"; "/ski-y"]); (6, ["/ski-y"; "/ski-x"])]
                    [("/ski-x", JObj Scenario.ski_x_update); ("/ski-y", Scenario.ski_y)])
                 Scenario.GRID_QUERY Scenario.region Scenario.locale)
              (Upsert.collect_product
                 (Scenario.server
                    [(5, ["/ski-x"; "/ski-y"]); (6, ["/ski-y"; "/ski-x"])]
                    [("/ski-x", JObj Scenario.ski_x_update); ("/ski-y", Scenario.ski_y)])
                 Scenario.PRODUCT_QUERY Scenario.region Scenario.locale)
              (Some [5; 6]) None (clean Scenario.stored))
    as (uids & trace & w' & Ht & _ & Hf & _ & Hc).
  exists trace, w'.
  assert (E : (Ok uids, (w', trace))
              = Scenario.traced_collect_products
                  [(5, ["/ski-x"; "/ski-y"]); (6, ["/ski-y"; "/ski-x"])]
                  [("/ski-x", JObj Scenario.ski_x_update); ("/ski-y", Scenario.ski_y)]
                  (Some [5; 6]) None (clean Scenario.stored))
    by (symmetry; exact Ht).
  vm_compute in E. injection E as Eu Ew Et. subst uids trace.
  split; [exact Ht|]. split; [reflexivity|]. split; [apply Hf|].
  apply (Hc (JStr "/ski-x")); [right; left; reflexivity | discriminate].
Defined.

(** C7, as the code has it. Under a limit [n] above zero, every call of a
    run, grid query or product, is made while fewer than [n] uids are
    collected, so that the run stops calling once the limit is reached,
    inside a category or between two; the returned list has at most [n]
    uids, and it is the set of the uids that the calls of the run created
    or updated. *)
Theorem collect_products_limit {St : Type}
    (get_paginated_products : Z -> M St json)
    (collect_product : json -> M St (option string))
    (categories : option (list Z)) (n : Z) (w : St) :
  0 < n ->
  exists uids trace w',
    Trace.collect_products get_paginated_products collect_product
      categories (Some n) w = (Ok uids, (w', trace))
    /\ Run.collect_products get_paginated_products collect_product
         categories (Some n) w = (Ok uids, w')
    /\ Z.of_nat (length uids) <= n
    /\ uids = Trace.created_or_updated trace
    /\ (forall t1 e t2,
          trace = (t1 ++ e :: t2)%list ->
          Z.of_nat (length (Trace.created_or_updated t1)) < n).
Proof.
  intros Hn.
  destruct (collect_products_traced get_paginated_products collect_product
              categories (Some n) w)
    as (uids & trace & w' & Ht & Hr & _ & Hc & Hl).
  exists uids, trace, w'. split; [exact Ht|]. split; [exact Hr|].
  split; [subst uids; apply within_limit_length; assumption|].
  split; [exact Hc|].
  intros t1 e t2 E. specialize (Hl t1 e t2 E). unfold Run.limit_reached in Hl.
  apply andb_false_iff in Hl as [Hl|Hl].
  - apply negb_false_iff, Z.eqb_eq in Hl. lia.
  - apply Z.leb_gt in Hl. exact Hl.
Qed.

(** A limit of one: the run stops after ["/ski-x"], inside category 5. *)
Lemma collect_products_limit_witness :
  exists trace w',
    Scenario.traced_collect_products
      [(5, ["/ski-x"; "/ski-y"]); (6, ["/ski-y"])]
      [("/ski-x", JObj Scenario.ski_x_update); ("/ski-y", Scenario.ski_y)]
      (Some [5; 6]) (Some 1) (clean Scenario.stored)
    = (Ok ["abc123"], (w', trace))
    /\ trace = [Trace.GridQuery 5; Trace.DetailFetch (JStr "/ski-x") (Ok (Some "abc123"))]
    /\ Z.of_nat (length ["abc123"]) <= 1.
Proof.
  destruct (collect_products_limit
              (ProductCollector.grid_of
                 (Scenario.server
                    [(5, ["/ski-x"; "/ski-y"]); (6, ["/ski-y"])]
                    [("/ski-x", JObj Scenario.ski_x_update); ("/ski-y", Scenario.ski_y)])
                 Scenario.GRID_QUERY Scenario.region Scenario.locale)
              (Upsert.collect_product
                 (Scenario.server
                    [(5, ["/ski-x"; "/ski-y"]); (6, ["/ski-y"])]
                    [("/ski-x", JObj Scenario.ski_x_update); ("/ski-y", Scenario.ski_y)])
                 Scenario.PRODUCT_QUERY Scenario.region Scenario.locale)
              (Some [5; 6]) 1 (clean Scenario.stored) eq_refl)
    as (uids & trace & w' & Ht & _ & Hlen & _).
  exists trace, w'.
  assert (E : (Ok uids, (w', trace))
              = Scenario.traced_collect_products
                  [(5, ["/ski-x"; "/ski-y"]); (6, ["/ski-y"])]
                  [("/ski-x", JObj Scenario.ski_x_update); ("/ski-y", Scenario.ski_y)]
                  (Some [5; 6]) (Some 1) (clean Scenario.stored))
    by (symmetry; exact Ht).
  vm_compute in E. injection E as Eu Ew Et. subst uids trace.
  split; [exact Ht|]. split; [reflexivity|]. exact Hlen.
Defined.

(** C7, as stated, fails for the limit 0, which the stopping test takes
    for no limit: the limit is reached before the first call, and the run
    returns two uids. *)
Lemma collect_products_exceeds_limit_zero :
  fst (Scenario.traced_collect_products [(5, ["/ski-x"; "/ski-y"])]
         [("/ski-x", JObj Scenario.ski_x_update); ("/ski-y", Scenario.ski_y)]
         (Some [5]) (Some 0) (clean Scenario.stored))
  = Ok ["abc123"; "def456"]
  /\ Run.limit_reached (Some 0) 0 = false
  /\ 0 < Z.of_nat (length ["abc123"; "def456"]).
Proof. repeat split. Qed.

(** C9. A limit of zero does not stop the run: the run is the run without
    a limit, it queries every category it was given, and on a catalog of
    two products it collects both. *)
Theorem collect_products_limit_zero {St : Type}
    (get_paginated_products : Z -> M St json)
    (collect_product : json -> M St (option string))
    (categories : option (list Z)) (w : St) :
  Run.collect_products get_paginated_products collect_product
    categories (Some 0) w
  = Run.collect_products get_paginated_products collect_product
      categories None w
  /\ Trace.queried
       (snd (snd (Trace.collect_products get_paginated_products collect_product
                    categories (Some 0) w)))
     = match categories with
       | Some l => l
       | None => Run.default_categories
       end
  /\ fst (Scenario.collect_products [(5, ["/ski-x"; "/ski-y"])]
            [("/ski-x", JObj Scenario.ski_x_update); ("/ski-y", Scenario.ski_y)]
            (Some [5]) (Some 0) (clean Scenario.stored))
     = Ok ["abc123"; "def456"].
Proof.
  split; [|split; [|reflexivity]].
  - unfold Run.collect_products.
    rewrite (category_loop_limit get_paginated_products collect_product
               (Some 0) None); [reflexivity|].
    intros n. reflexivity.
  - unfold Trace.collect_products, Run.collect_products.
    pose proof (category_loop_queries get_paginated_products collect_product
                  (Some 0)
                  match categories with
                  | Some l => l
                  | None => Run.default_categories
                  end (fun n => eq_refl) (Run.mk [] [] (w, []))) as H.
    destruct (Run.category_loop _ _ (Some 0) _ _) as [r s].
    exact H.
Qed.

(** * Further properties *)

(** ** The catalog client *)

(** X1. What [execute] returns is what the endpoint sent: the request got
    a response whose status is no HTTP error and whose body decodes to the
    returned value, and ["errors"] is not in that value; for an object, it
    has no ["errors"] field. *)
Theorem execute_returns_the_body
    (post : json -> GraphQL.http_outcome) (query : string)
    (variables operation_name data : json) :
  GraphQL.execute post query variables operation_name = Ok data ->
  exists status,
    post (GraphQL.request_payload query variables operation_name)
    = GraphQL.Response status (Some data)
    /\ (status < 400 \/ 600 <= status)
    /\ GraphQL.has_errors data = Ok false
    /\ (forall kvs, data = JObj kvs -> lookup_key "errors" kvs = None).
Proof.
  unfold GraphQL.execute.
  destruct (post _) as [|status body]; [discriminate|].
  destruct ((400 <=? status) && (status <? 600)) eqn:Hs; [discriminate|].
  destruct body as [body|]; [|discriminate].
  destruct (GraphQL.has_errors body) as [[|]|e] eqn:He; simpl; try discriminate.
  - destruct (GraphQL.subscript_errors body); discriminate.
  - intros H. injection H as <-. exists status.
    split; [reflexivity|]. split; [lia|]. split; [exact He|].
    intros kvs ->. simpl in He.
    destruct (lookup_key "errors" kvs); [discriminate|reflexivity].
Qed.

Lemma execute_returns_the_body_witness :
  exists status,
    Scenario.server [] [("/ski-y", Scenario.ski_y)]
      (GraphQL.request_payload Scenario.PRODUCT_QUERY
         (JObj [("url", JStr "/ski-y"); ("locale", JStr "en-us");
                ("bcRegion", JStr "no")])
         (JStr "GetProduct"))
    = GraphQL.Response status
        (Some (JObj [("data", JObj [("product", Scenario.ski_y)])]))
    /\ (status < 400 \/ 600 <= status)
    /\ GraphQL.has_errors (JObj [("data", JObj [("product", Scenario.ski_y)])])
       = Ok false
    /\ (forall kvs,
          JObj [("data", JObj [("product", Scenario.ski_y)])] = JObj kvs ->
          lookup_key "errors" kvs = None).
Proof.
  exact (execute_returns_the_body
           (Scenario.server [] [("/ski-y", Scenario.ski_y)])
           Scenario.PRODUCT_QUERY
           (JObj [("url", JStr "/ski-y"); ("locale", JStr "en-us");
                  ("bcRegion", JStr "no")])
           (JStr "GetProduct") _ eq_refl).
Defined.

(** X2. The two errors of the client tell what happened. A [GraphQLError]
    is raised only for a response without HTTP error whose body is an
    object with an ["errors"] field, and it carries the value of that
    field; a [RequestException] is raised only when there was no response,
    an HTTP error status, or a body that does not decode. *)
Theorem execute_errors_have_a_cause
    (post : json -> GraphQL.http_outcome) (query : string)
    (variables operation_name : json) :
  (forall errors,
     GraphQL.execute post query variables operation_name
     = Raise (GraphQLError errors) ->
     exists status kvs,
       post (GraphQL.request_payload query variables operation_name)
       = GraphQL.Response status (Some (JObj kvs))
       /\ (status < 400 \/ 600 <= status)
       /\ lookup_key "errors" kvs = Some errors)
  /\ (forall f,
        GraphQL.execute post query variables operation_name
        = Raise (RequestException f) ->
        match post (GraphQL.request_payload query variables operation_name) with
        | GraphQL.NoResponse => f = ConnectionError
        | GraphQL.Response status body =>
            400 <= status < 600 /\ f = HTTPError status
            \/ (status < 400 \/ 600 <= status) /\ body = None
               /\ f = JSONDecodeError
        end).
Proof.
  unfold GraphQL.execute. split.
  - intros errors.
    destruct (post _) as [|status body]; [discriminate|].
    destruct ((400 <=? status) && (status <? 600)) eqn:Hs; [discriminate|].
    destruct body as [body|]; [|discriminate].
    destruct body as [|b|n|str|l|kvs]; simpl; try discriminate.
    + destruct (GraphQL.contains "errors" str); discriminate.
    + destruct (existsb _ l); discriminate.
    + destruct (lookup_key "errors" kvs) as [e|] eqn:He; simpl; [|discriminate].
      intros H. injection H as <-. exists status, kvs.
      split; [reflexivity|]. split; [lia|exact He].
  - intros f.
    destruct (post _) as [|status body]; [congruence|].
    destruct ((400 <=? status) && (status <? 600)) eqn:Hs.
    + intros H. left. split; [lia|congruence].
    + destruct body as [body|].
      * destruct body as [|b|n|str|l|kvs]; simpl; try discriminate.
        -- destruct (GraphQL.contains "errors" str); discriminate.
        -- destruct (existsb _ l); discriminate.
        -- destruct (lookup_key "errors" kvs); discriminate.
      * intros H. right. split; [lia|]. split; congruence.
Qed.

Lemma execute_errors_have_a_cause_witness :
  exists status kvs,
    (fun _ : json => GraphQL.Response 200
       (Some (JObj [("data", JNull); ("errors", JList [JStr "Not found"])])))
      (GraphQL.request_payload "query GetProduct" (JObj [("url", JStr "/ski-x")])
         (JStr "GetProduct"))
    = GraphQL.Response status (Some (JObj kvs))
    /\ (status < 400 \/ 600 <= status)
    /\ lookup_key "errors" kvs = Some (JList [JStr "Not found"]).
Proof.
  exact (proj1 (execute_errors_have_a_cause
                  (fun _ => GraphQL.Response 200
                     (Some (JObj [("data", JNull);
                                  ("errors", JList [JStr "Not found"])])))
                  "query GetProduct" (JObj [("url", JStr "/ski-x")])
                  (JStr "GetProduct"))
               (JList [JStr "Not found"]) eq_refl).
Defined.

(** ** Field extraction *)

Section NormalizerExtras.

Lemma spec_entry_view spec e :
  SpecSpec.entry_view spec e -> spec_entry spec = Ok (SpecSpec.kept [e]).
Proof.
  intros (kvs & -> & Hi & Ht & Hv). destruct e as [i t v]. simpl in *.
  unfold spec_entry, SpecSpec.kept. cbn [dict_get rbind List.filter].
  cbn [ProductSpecSchema.spec_id ProductSpecSchema.title].
  destruct Hi as [Hi|[Hi ->]]; rewrite Hi; cbn [truthy];
    [|cbn [String.eqb negb andb]; reflexivity].
  destruct (String.eqb i "") eqn:Ei; cbn [negb andb]; [reflexivity|].
  destruct Ht as [Ht|[Ht ->]]; rewrite Ht; cbn [truthy];
    [|cbn [String.eqb negb]; reflexivity].
  destruct (String.eqb t "") eqn:Et; cbn [negb]; [reflexivity|].
  unfold ProductSpecSchema.make. cbn [as_str].
  destruct Hv as [(raw & Hr & Hv)|[Hr ->]]; rewrite Hr; [rewrite Hv|]; reflexivity.
Qed.

Lemma kept_cons e entries :
  SpecSpec.kept (e :: entries) = (SpecSpec.kept [e] ++ SpecSpec.kept entries)%list.
Proof.
  unfold SpecSpec.kept. simpl.
  destruct (negb _ && negb _); reflexivity.
Qed.

Lemma gather_specs l entries :
  Forall2 SpecSpec.entry_view l entries ->
  gather spec_entry l = Ok (SpecSpec.kept entries).
Proof.
  intros H. induction H as [|spec e l entries He _ IH]; [reflexivity|].
  rewrite (gather_cons _ _ _ _ _ (spec_entry_view spec e He) IH).
  rewrite <- kept_cons. reflexivity.
Qed.

End NormalizerExtras.

(** X3. On a payload whose ["updated_product_specs"] is a list of
    entries, [_extract_specs] keeps, in order, the entries that have both a
    non-empty ["id"] and a non-empty ["title"], with their value as it is;
    a missing ["id"] or ["title"] counts as empty and a missing ["value"]
    as the empty string. *)
Theorem extract_specs_keeps_identified
    (product_data : json) (l : list json) (entries : list ProductSpecSchema.t) :
  dict_get product_data "updated_product_specs" (JList []) = Ok (JList l) ->
  Forall2 SpecSpec.entry_view l entries ->
  _extract_specs product_data = Ok (SpecSpec.kept entries).
Proof.
  intros Hl Hv. unfold _extract_specs. rewrite Hl. simpl.
  apply gather_specs, Hv.
Qed.

Lemma extract_specs_keeps_identified_witness :
  _extract_specs (JObj [("updated_product_specs", JList Samples.spec_entries)])
  = Ok [ProductSpecSchema.mk "len" "Length" (ProductSpecSchema.VStr "170cm");
        ProductSpecSchema.mk "sizes" "Sizes" (ProductSpecSchema.VList ["170"; "175"]);
        ProductSpecSchema.mk "core" "Core" (ProductSpecSchema.VStr "")].
Proof.
  refine (extract_specs_keeps_identified
            (JObj [("updated_product_specs", JList Samples.spec_entries)])
            Samples.spec_entries
            [ProductSpecSchema.mk "len" "Length" (ProductSpecSchema.VStr "170cm");
             ProductSpecSchema.mk "" "Width" (ProductSpecSchema.VStr "44mm");
             ProductSpecSchema.mk "cam" "" (ProductSpecSchema.VStr "High");
             ProductSpecSchema.mk "sizes" "Sizes"
               (ProductSpecSchema.VList ["170"; "175"]);
             ProductSpecSchema.mk "core" "Core" (ProductSpecSchema.VStr "")]
            eq_refl _).
  unfold Samples.spec_entries.
  repeat (apply List.Forall2_cons;
          [eexists; split; [reflexivity|]; split;
           [first [left; reflexivity | right; split; reflexivity]|]; split;
           [first [left; reflexivity | right; split; reflexivity]|];
           first [left; eexists; split; reflexivity | right; split; reflexivity]|]).
  apply List.Forall2_nil.
Defined.

(** X4. A field that is missing and a field that is [null] are not
    treated alike. Without ["updated_product_specs"], ["prices"] or
    ["details"] the extraction gives no row; with [null] for one of them it
    raises. Inside ["details"], a missing or [null] ["technology"] gives no
    row, and so does a missing ["feature_details"], but a [null]
    ["feature_details"] raises. *)
Theorem extraction_of_missing_and_null (kvs : list (string * json)) :
  (lookup_key "updated_product_specs" kvs = None ->
   _extract_specs (JObj kvs) = Ok [])
  /\ (lookup_key "updated_product_specs" kvs = Some JNull ->
      _extract_specs (JObj kvs) = Raise TypeError)
  /\ (lookup_key "prices" kvs = None -> _extract_prices (JObj kvs) = Ok [])
  /\ (lookup_key "prices" kvs = Some JNull ->
      _extract_prices (JObj kvs) = Raise AttributeError)
  /\ (lookup_key "details" kvs = None ->
      _extract_technologies (JObj kvs) = Ok []
      /\ _extract_features (JObj kvs) = Ok [])
  /\ (lookup_key "details" kvs = Some JNull ->
      _extract_technologies (JObj kvs) = Raise AttributeError
      /\ _extract_features (JObj kvs) = Raise AttributeError)
  /\ (forall details,
        lookup_key "details" kvs = Some (JObj details) ->
        (lookup_key "technology" details = None
         \/ lookup_key "technology" details = Some JNull ->
         _extract_technologies (JObj kvs) = Ok [])
        /\ (lookup_key "feature_details" details = None ->
            _extract_features (JObj kvs) = Ok [])
        /\ (lookup_key "feature_details" details = Some JNull ->
            _extract_features (JObj kvs) = Raise TypeError)).
Proof.
  unfold _extract_specs, _extract_prices, _extract_technologies,
    _extract_features. cbn [dict_get rbind].
  split; [intros ->; reflexivity|]. split; [intros ->; reflexivity|].
  split; [intros ->; reflexivity|]. split; [intros ->; reflexivity|].
  split; [intros ->; split; reflexivity|].
  split; [intros ->; split; reflexivity|].
  intros details ->. cbn [dict_get rbind].
  split; [intros [->| ->]; reflexivity|].
  split; intros ->; reflexivity.
Qed.

Lemma extraction_of_missing_and_null_witness :
  (_extract_technologies Scenario.ski_x_without_details = Raise AttributeError
   /\ _extract_features Scenario.ski_x_without_details = Raise AttributeError)
  /\ _extract_specs (JObj [("uid", JStr "abc123")]) = Ok [].
Proof.
  split.
  - apply (extraction_of_missing_and_null
             [("uid", JStr "abc123"); ("title", JStr "Ski X 2");
              ("updated_product_specs",
               JList [JObj [("id", JStr "len"); ("title", JStr "Length");
                            ("value", JStr "175cm")]]);
              ("prices", JObj [("no", JStr "120 NOK"); ("gb", JStr "")]);
              ("details", JNull)]).
    reflexivity.
  - apply (extraction_of_missing_and_null [("uid", JStr "abc123")]).
    reflexivity.
Defined.

(** ** The upsert *)

Section UpsertExtras.

Import DbSpec UpsertSpec.



(** What a successful [_create_product] has extracted. *)
Lemma create_product_ok kvs s u s' :
  _create_product (JObj kvs) s = (Ok u, s') ->
  exists description specs prices technologies features,
    lookup_key "uid" kvs = Some (JStr u)
    /\ _clean_html (payload_or kvs "description" (JStr "")) = Ok description
    /\ _extract_specs (JObj kvs) = Ok specs
    /\ _extract_prices (JObj kvs) = Ok prices
    /\ _extract_technologies (JObj kvs) = Ok technologies
    /\ _extract_features (JObj kvs) = Ok features.
Proof.
  unfold _create_product, bind, lift. cbn [dict_get rbind]. unfold payload_or.
  destruct (lookup_key "uid" kvs) as [[| | |uid| |]|]; try discriminate.
  cbn [uid_key as_str].
  destruct (_clean_html _) as [description|e]; [|discriminate]. simpl.
  rewrite add_children_run.
  destruct (_extract_specs (JObj kvs)) as [specs|e]; [|discriminate].
  destruct (_extract_prices (JObj kvs)) as [prices|e]; [|discriminate].
  destruct (_extract_technologies (JObj kvs)) as [technologies|e]; [|discriminate].
  destruct (_extract_features (JObj kvs)) as [features|e]; [|discriminate].
  intros H. injection H as <- _. eauto 12.
Qed.

(** A successful [_create_product]: what it needs and the session it
    leaves. *)
Lemma create_product_run kvs s u description specs prices technologies features :
  lookup_key "uid" kvs = Some (JStr u) ->
  _clean_html (payload_or kvs "description" (JStr "")) = Ok description ->
  _extract_specs (JObj kvs) = Ok specs ->
  _extract_prices (JObj kvs) = Ok prices ->
  _extract_technologies (JObj kvs) = Ok technologies ->
  _extract_features (JObj kvs) = Ok features ->
  _create_product (JObj kvs) s
  = (Ok u,
     after_commit
       (pushed (map (spec_row u) specs) (price_rows u prices)
               (map (technology_row u) technologies)
               (map (feature_row u) features)
               (flushed (held (created kvs u description) s)))).
Proof.
  intros Hu Hd Hs Hp Ht Hf.
  unfold _create_product, bind, lift. cbn [dict_get rbind]. rewrite Hu.
  cbn [uid_key as_str]. unfold payload_or in Hd. rewrite Hd. simpl.
  rewrite add_children_run, Hs, Hp, Ht, Hf. reflexivity.
Qed.

(** The rows of another product among the rows left by an upsert of
    [uid]. *)
Lemma other_rows {A} (f : A -> string) uid other (old new : list A) :
  other <> uid ->
  Forall (fun x => f x = uid) new ->
  List.filter (of_uid f other) (List.filter (other_uid f uid) old ++ new)
  = List.filter (of_uid f other) old.
Proof.
  intros Hne Hnew. rewrite List.filter_app.
  assert (E : List.filter (of_uid f other) new = []).
  { apply filter_none. intros y Hy.
    rewrite List.Forall_forall in Hnew. unfold of_uid. rewrite (Hnew y Hy).
    apply String.eqb_neq. auto. }
  rewrite E, app_nil_r. clear E Hnew.
  induction old as [|x old IH]; simpl; [reflexivity|].
  unfold other_uid at 1, of_uid at 2.
  destruct (String.eqb (f x) uid) eqn:E1; simpl.
  - apply String.eqb_eq in E1. rewrite E1.
    assert (String.eqb uid other = false) as -> by (apply String.eqb_neq; auto).
    exact IH.
  - unfold of_uid at 1. destruct (String.eqb (f x) other); rewrite IH; reflexivity.
Qed.

Lemma other_rows_added {A} (f : A -> string) uid other (old new : list A) :
  other <> uid ->
  Forall (fun x => f x = uid) new ->
  List.filter (of_uid f other) (old ++ new) = List.filter (of_uid f other) old.
Proof.
  intros Hne Hnew. rewrite List.filter_app.
  assert (E : List.filter (of_uid f other) new = []).
  { apply filter_none. intros y Hy.
    rewrite List.Forall_forall in Hnew. unfold of_uid. rewrite (Hnew y Hy).
    apply String.eqb_neq. auto. }
  rewrite E, app_nil_r. reflexivity.
Qed.

Lemma price_rows_own uid prices :
  Forall (fun r => ProductPrice.product_uid r = uid) (price_rows uid prices).
Proof. apply rows_own. reflexivity. Qed.

Lemma own_rows_added {A} (f : A -> string) uid (old new : list A) :
  Forall (fun x => f x = uid) new ->
  List.filter (of_uid f uid) (old ++ new)
  = (List.filter (of_uid f uid) old ++ new)%list.
Proof.
  intros H. rewrite List.filter_app, (filter_of_own f uid new H). reflexivity.
Qed.

(** The committed store after an update of [p] in a session with nothing
    pending: [p] and the new rows for its uid, the rest as it was. *)
Lemma updated_store d p specs prices technologies features :
  Forall (fun r => ProductSpec.product_uid r = Product.uid p) specs ->
  Forall (fun r => ProductPrice.product_uid r = Product.uid p) prices ->
  Forall (fun r => ProductTechnology.product_uid r = Product.uid p) technologies ->
  Forall (fun r => ProductFeature.product_uid r = Product.uid p) features ->
  let d' :=
    committed (after_commit (pushed specs prices technologies features
                               (deleted (Product.uid p) (held p (clean d))))) in
  products d' !! Product.uid p = Some p
  /\ specs_of (Product.uid p) d' = specs
  /\ prices_of (Product.uid p) d' = prices
  /\ technologies_of (Product.uid p) d' = technologies
  /\ features_of (Product.uid p) d' = features
  /\ (forall other, other <> Product.uid p -> same_product other d' d).
Proof.
  intros Hs Hp Ht Hf d'. subst d'.
  unfold specs_of, prices_of, technologies_of, features_of, same_product,
    specs_of, prices_of, technologies_of, features_of. simpl.
  split; [apply lookup_union_Some_l, lookup_insert_eq|].
  rewrite !List.filter_app, !filter_of_other. simpl.
  rewrite (filter_of_own _ _ specs Hs), (filter_of_own _ _ prices Hp),
    (filter_of_own _ _ technologies Ht), (filter_of_own _ _ features Hf).
  repeat (split; [reflexivity|]).
  intros other Hne.
  rewrite !(other_rows _ (Product.uid p) other) by assumption.
  split; [|repeat split].
  rewrite lookup_union_r; [reflexivity|].
  rewrite lookup_insert_ne by auto. apply lookup_empty.
Qed.

(** The committed store after a creation of [p] in a session with nothing
    pending. *)
Lemma created_store d p specs prices technologies features :
  Forall (fun r => ProductSpec.product_uid r = Product.uid p) specs ->
  Forall (fun r => ProductPrice.product_uid r = Product.uid p) prices ->
  Forall (fun r => ProductTechnology.product_uid r = Product.uid p) technologies ->
  Forall (fun r => ProductFeature.product_uid r = Product.uid p) features ->
  let d' :=
    committed (after_commit (pushed specs prices technologies features
                               (flushed (held p (clean d))))) in
  products d' !! Product.uid p = Some p
  /\ specs_of (Product.uid p) d' = (specs_of (Product.uid p) d ++ specs)%list
  /\ prices_of (Product.uid p) d' = (prices_of (Product.uid p) d ++ prices)%list
  /\ technologies_of (Product.uid p) d'
     = (technologies_of (Product.uid p) d ++ technologies)%list
  /\ features_of (Product.uid p) d'
     = (features_of (Product.uid p) d ++ features)%list
  /\ (forall other, other <> Product.uid p -> same_product other d' d).
Proof.
  intros Hs Hp Ht Hf d'. subst d'.
  unfold specs_of, prices_of, technologies_of, features_of, same_product,
    specs_of, prices_of, technologies_of, features_of. simpl.
  rewrite !app_nil_r.
  split.
  { rewrite lookup_union_r by apply lookup_empty.
    apply lookup_union_Some_l, lookup_insert_eq. }
  rewrite !own_rows_added by assumption.
  repeat (split; [reflexivity|]).
  intros other Hne.
  rewrite !(other_rows_added _ (Product.uid p) other) by assumption.
  split; [|repeat split].
  rewrite lookup_union_r by apply lookup_empty.
  rewrite lookup_union_r; [reflexivity|].
  rewrite lookup_insert_ne by auto. apply lookup_empty.
Qed.











Variable post : json -> GraphQL.http_outcome.
Variable query region locale : string.


(** What a call that gives a uid has gone through. *)
Lemma collect_product_some url s u s' :
  collect_product post query region locale url s = (Ok (Some u), s') ->
  exists response kvs u0,
    GraphQL.get_product post query url locale region = Ok response
    /\ product_of response = Ok (JObj kvs)
    /\ lookup_key "uid" kvs = Some (JStr u0)
    /\ u0 <> ""
    /\ match products (tx s) !! u0 with
       | Some row =>
           _update_product
             match products (unflushed s) !! u0 with
             | Some obj => obj
             | None => row
             end (JObj kvs) s = (Ok u, s')
       | None => _create_product (JObj kvs) s = (Ok u, s')
       end.
Proof.
  unfold collect_product, try_except, bind, lift.
  destruct (GraphQL.get_product post query url locale region) as [response|e];
    [|discriminate].
  destruct (dict_get response "data" (JObj [])) as [data|e] eqn:Ed; [|discriminate].
  destruct (dict_get data "product" (JObj [])) as [product_data|e] eqn:Epd;
    [|discriminate].
  destruct (truthy product_data) eqn:Ep; cbn [negb]; [|discriminate].
  destruct product_data as [|b|n|str|l|kvs]; try discriminate.
  cbn [dict_get].
  destruct (lookup_key "uid" kvs) as [uid|] eqn:Eu; [|discriminate].
  destruct (truthy uid) eqn:Et; cbn [negb]; [|discriminate].
  destruct uid as [|b|n|u0|l|kvs']; try discriminate.
  cbn [uid_key as_str]. unfold query_product, gets.
  assert (Hne : u0 <> "").
  { intros ->. discriminate. }
  intros H. exists response, kvs, u0.
  split; [reflexivity|].
  split; [unfold product_of; rewrite Ed; exact Epd|].
  split; [exact Eu|]. split; [exact Hne|].
  destruct (products (tx s) !! u0) as [row|].
  - destruct (_update_product _ _ s) as [[u'|e] s1]; [|discriminate].
    injection H as -> ->. reflexivity.
  - destruct (_create_product _ s) as [[u'|e] s1]; [|discriminate].
    injection H as -> ->. reflexivity.
Qed.

(** A call that gives a uid on a session with nothing pending: what the
    payload was, and the store it commits. *)
Lemma collect_product_stored url d u s' :
  keyed d ->
  referential d ->
  collect_product post query region locale url (clean d) = (Ok (Some u), s') ->
  exists response kvs description specs prices technologies features,
    GraphQL.get_product post query url locale region = Ok response
    /\ product_of response = Ok (JObj kvs)
    /\ lookup_key "uid" kvs = Some (JStr u)
    /\ u <> ""
    /\ _clean_html
         (payload_or kvs "description"
            match products d !! u with
            | Some row => Product.description row
            | None => JStr ""
            end) = Ok description
    /\ _extract_specs (JObj kvs) = Ok specs
    /\ _extract_prices (JObj kvs) = Ok prices
    /\ _extract_technologies (JObj kvs) = Ok technologies
    /\ _extract_features (JObj kvs) = Ok features
    /\ s' = clean (committed s')
    /\ products (committed s') !! u
       = Some match products d !! u with
              | Some row => updated row kvs description
              | None => created kvs u description
              end
    /\ specs_of u (committed s') = map (spec_row u) specs
    /\ prices_of u (committed s') = price_rows u prices
    /\ technologies_of u (committed s') = map (technology_row u) technologies
    /\ features_of u (committed s') = map (feature_row u) features
    /\ (forall other, other <> u -> same_product other (committed s') d).
Proof.
  intros Hk Hr H.
  apply collect_product_some in H as (response & kvs & u0 & Hg & Hp & Hu & Hne & H).
  cbn [clean tx unflushed empty_db products] in H.
  rewrite lookup_empty in H.
  exists response, kvs.
  destruct (products d !! u0) as [row|] eqn:Erow.
  - pose proof (Hk _ _ Erow) as Huid.
    destruct (update_product_ok _ _ _ _ _ H)
      as (description & specs & prices & technologies & features
          & Hd & Hs & Hpr & Ht & Hf).
    rewrite (update_product_run _ _ _ _ _ _ _ _ Hd Hs Hpr Ht Hf) in H.
    injection H as Hu' <-. rewrite Huid in Hu'. subst u0.
    exists description, specs, prices, technologies, features.
    rewrite Erow.
    repeat (split; [assumption|]).
    split; [reflexivity|].
    rewrite <- Huid.
    destruct (updated_store d (updated row kvs description)
                (map (spec_row (Product.uid row)) specs)
                (price_rows (Product.uid row) prices)
                (map (technology_row (Product.uid row)) technologies)
                (map (feature_row (Product.uid row)) features))
      as (Hprod & Hsp & Hpp & Htt & Hff & Hother);
      try (apply rows_own; intros; reflexivity).
    repeat (split; [assumption|]). exact Hother.
  - destruct (create_product_ok _ _ _ _ H)
      as (description & specs & prices & technologies & features
          & Hu' & Hd & Hs & Hpr & Ht & Hf).
    rewrite Hu in Hu'. injection Hu' as ->.
    rewrite (create_product_run _ _ _ _ _ _ _ _ Hu Hd Hs Hpr Ht Hf) in H.
    injection H as <-.
    exists description, specs, prices, technologies, features.
    rewrite Erow.
    repeat (split; [assumption|]).
    split; [reflexivity|].
    destruct (Hr _ Erow) as (C1 & C2 & C3 & C4).
    destruct (created_store d (created kvs u description)
                (map (spec_row u) specs) (price_rows u prices)
                (map (technology_row u) technologies)
                (map (feature_row u) features))
      as (Hprod & Hsp & Hpp & Htt & Hff & Hother);
      try (apply rows_own; intros; reflexivity).
    cbn [created Product.uid] in *.
    rewrite C1 in Hsp. rewrite C2 in Hpp. rewrite C3 in Htt. rewrite C4 in Hff.
    repeat (split; [assumption|]). exact Hother.
Qed.



(** X5. A call of [collect_product] that gives a uid, on a session with
    nothing pending, leaves nothing pending, has stored a product under
    that uid, and has changed nothing of any other product: neither its
    row nor its rows in the four child tables. The store stays keyed by
    uid and without child rows of unknown products. *)
Theorem collect_product_touches_one_product url d u s' :
  keyed d ->
  referential d ->
  collect_product post query region locale url (clean d) = (Ok (Some u), s') ->
  s' = clean (committed s')
  /\ keyed (committed s')
  /\ referential (committed s')
  /\ products (committed s') !! u <> None
  /\ (forall other, other <> u -> same_product other (committed s') d).
Proof.
  intros Hk Hr H.
  destruct (collect_product_stored _ _ _ _ Hk Hr H)
    as (response & kvs & description & specs & prices & technologies & features
        & _ & _ & _ & _ & _ & _ & _ & _ & _ & Hclean & Hprod & _ & _ & _ & _
        & Hother).
  split; [exact Hclean|].
  split; [|split; [|split; [rewrite Hprod; discriminate|exact Hother]]].
  - intros k p Hkp. destruct (String.eqb k u) eqn:E.
    + apply String.eqb_eq in E. subst k. rewrite Hprod in Hkp.
      injection Hkp as <-.
      destruct (products d !! u) as [row|] eqn:Erow; [|reflexivity].
      exact (Hk _ _ Erow).
    + apply String.eqb_neq in E. destruct (Hother k E) as [Hp _].
      rewrite Hp in Hkp. exact (Hk _ _ Hkp).
  - intros k Hnone. destruct (String.eqb k u) eqn:E.
    + apply String.eqb_eq in E. subst k. rewrite Hprod in Hnone. discriminate.
    + apply String.eqb_neq in E.
      destruct (Hother k E) as (Hp & Hs & Hpr & Ht & Hf).
      rewrite Hp in Hnone. destruct (Hr k Hnone) as (C1 & C2 & C3 & C4).
      unfold childless. rewrite Hs, Hpr, Ht, Hf. auto.
Qed.



(** X8. Without a uid there is no database work at all. When the fetch
    raises, when the response has no product to read, when the product is
    not an object, or when it is an object whose ["uid"] is missing or
    falsy, [collect_product] gives [None] and the session is the one it
    was given: nothing queried, nothing held, nothing sent. *)
Theorem collect_product_without_uid url s :
  (forall e,
     GraphQL.get_product post query url locale region = Raise e ->
     collect_product post query region locale url s = (Ok None, s))
  /\ (forall response,
       GraphQL.get_product post query url locale region = Ok response ->
       (forall e,
          product_of response = Raise e ->
          collect_product post query region locale url s = (Ok None, s))
       /\ (forall product_data,
            product_of response = Ok product_data ->
            (forall kvs, product_data <> JObj kvs) ->
            collect_product post query region locale url s = (Ok None, s))
       /\ (forall kvs,
            product_of response = Ok (JObj kvs) ->
            match lookup_key "uid" kvs with
            | Some uid => truthy uid = false
            | None => True
            end ->
            collect_product post query region locale url s = (Ok None, s))).
Proof.
  unfold collect_product, try_except, bind, lift, product_of.
  split; [intros e ->; reflexivity|].
  intros response ->.
  destruct (dict_get response "data" (JObj [])) as [data|e0]; cbn [rbind].
  - split; [intros e ->; reflexivity|].
    split.
    + intros product_data -> Hno.
      destruct product_data as [|b|n|str|l|kvs];
        try (destruct (truthy _); reflexivity).
      destruct (Hno kvs eq_refl).
    + intros kvs -> Hu. destruct kvs as [|kv kvs']; [reflexivity|].
      cbn [truthy negb dict_get].
      destruct (lookup_key "uid" (kv :: kvs')) as [uid|].
      * rewrite Hu. reflexivity.
      * reflexivity.
  - split; [intros e _; reflexivity|].
    split; [intros product_data H; discriminate|intros kvs H; discriminate].
Qed.



End UpsertExtras.

Lemma stored_keyed : UpsertSpec.keyed Scenario.stored.
Proof.
  intros k p H. unfold Scenario.stored in H. cbn [products] in H.
  apply lookup_singleton_Some in H as [<- <-]. reflexivity.
Qed.

Lemma stored_referential : UpsertSpec.referential Scenario.stored.
Proof.
  intros uid H. unfold Scenario.stored in H. cbn [products] in H.
  apply lookup_singleton_None in H.
  assert (E : String.eqb "abc123" uid = false) by (apply String.eqb_neq; exact H).
  unfold UpsertSpec.childless, DbSpec.specs_of, DbSpec.prices_of,
    DbSpec.technologies_of, DbSpec.features_of, DbSpec.of_uid.
  cbn -[String.eqb]. rewrite E. auto.
Qed.

Lemma collect_product_touches_one_product_witness :
  exists s',
    Scenario.collect_product [] [("/ski-y", Scenario.ski_y)] (JStr "/ski-y")
      (clean Scenario.stored) = (Ok (Some "def456"), s')
    /\ s' = clean (committed s')
    /\ UpsertSpec.keyed (committed s')
    /\ UpsertSpec.referential (committed s')
    /\ products (committed s') !! "def456" <> None
    /\ (forall other, other <> "def456" ->
        UpsertSpec.same_product other (committed s') Scenario.stored).
Proof.
  exists (snd (Scenario.collect_product [] [("/ski-y", Scenario.ski_y)]
                 (JStr "/ski-y") (clean Scenario.stored))).
  split; [vm_compute; reflexivity|].
  apply (collect_product_touches_one_product
           (Scenario.server [] [("/ski-y", Scenario.ski_y)])
           Scenario.PRODUCT_QUERY Scenario.region Scenario.locale
           (JStr "/ski-y") Scenario.stored "def456" _
           stored_keyed stored_referential).
  vm_compute. reflexivity.
Defined.



Lemma collect_product_without_uid_witness :
  Scenario.collect_product [] [] (JStr "/ski-w") (clean Scenario.stored)
  = (Ok None, clean Scenario.stored).
Proof.
  apply (proj1 (proj2 (proj2 (collect_product_without_uid
                                (Scenario.server [] [])
                                Scenario.PRODUCT_QUERY Scenario.region
                                Scenario.locale (JStr "/ski-w")
                                (clean Scenario.stored))
                               (Samples.detail_response JNull) eq_refl))
           JNull); [reflexivity|discriminate].
Defined.


(** ** The run *)

Section RunExtras.

Import Run RunSpec GridSpec.

Context {St : Type}.
Variable get_paginated_products : Z -> M St json.
Variable collect_product : json -> M St (option string).
Variable limit : option Z.

Local Abbreviation product_loop := (Run.product_loop collect_product limit).
Local Abbreviation category_loop :=
  (Run.category_loop get_paginated_products collect_product limit).
Local Abbreviation reached s := (limit_reached limit (length (collected_uids s))).

(** A loop over [l ++ l'] is the loop over [l], then over [l'] unless it
    raised. *)
Lemma product_loop_app l l' : forall s : run_state St,
  product_loop (l ++ l') s
  = match product_loop l s with
    | (Ok _, s1) => product_loop l' s1
    | (Raise e, s1) => (Raise e, s1)
    end.
Proof.
  induction l as [|product_data l IH]; intros s; [reflexivity|].
  cbn [app]. rewrite !product_loop_cons.
  destruct (reached s) eqn:Hl.
  - destruct l' as [|product_data' l']; [reflexivity|].
    rewrite product_loop_cons, Hl. reflexivity.
  - destruct (dict_get product_data "url" JNull) as [url|e]; [|reflexivity].
    destruct (truthy url); cbn [negb]; [|apply IH].
    destruct (set_mem url (product_urls s)) as [[|]|e];
      [apply IH|apply IH|reflexivity].
Qed.

(** The loop stops at a malformed entry. *)
Lemma product_loop_malformed product_data rest (s : run_state St) :
  malformed product_data ->
  snd (product_loop (product_data :: rest) s) = s.
Proof.
  intros H. rewrite product_loop_cons.
  destruct (reached s); [reflexivity|].
  destruct H as [[e ->]|(url & -> & Ht & Hh)]; [reflexivity|].
  rewrite Ht. cbn [negb]. unfold set_mem. rewrite Hh. reflexivity.
Qed.

(** X11. A category whose grid query raises, or whose response cannot be
    read as a list of products, is skipped: the run goes on with the next
    category, with the sets of uids and urls as they were. *)
Theorem failing_category_is_skipped category rest (s : run_state St) r w e :
  reached s = false ->
  get_paginated_products category (world s) = (r, w) ->
  rbind r grid_products = Raise e ->
  category_loop (category :: rest) s = category_loop rest (with_world w s).
Proof.
  intros Hl Hg Hr. rewrite category_loop_cons, Hl, collect_category_run, Hg.
  destruct r as [response|e']; [|reflexivity].
  cbn [rbind] in Hr. rewrite Hr. reflexivity.
Qed.

(** X12. A malformed entry in the grid of a category, one that is not an
    object or whose url is not hashable, ends that category: the entries
    before it are handled, the entries after it are never looked at, and
    the run goes on with the next category. *)
Theorem malformed_entry_ends_its_category
    category rest (s : run_state St) response w good bad more :
  reached s = false ->
  get_paginated_products category (world s) = (Ok response, w) ->
  grid_products response = Ok (good ++ bad :: more)%list ->
  malformed bad ->
  category_loop (category :: rest) s
  = category_loop rest (snd (product_loop good (with_world w s))).
Proof.
  intros Hl Hg Hr Hbad.
  rewrite category_loop_cons, Hl, collect_category_run, Hg, Hr, product_loop_app.
  destruct (product_loop good (with_world w s)) as [[[]|e] s1]; [|reflexivity].
  cbn [snd]. rewrite (product_loop_malformed bad more s1 Hbad). reflexivity.
Qed.

Lemma eqb_hashable url : hashable url = true -> Py.eqb url url = true.
Proof.
  destruct url as [|b|n|str|l|kvs]; try discriminate; intros _; simpl.
  - reflexivity.
  - destruct b; reflexivity.
  - apply Z.eqb_refl.
  - apply String.eqb_refl.
Qed.

Lemma noted_later u urls url :
  noted u urls = true -> noted u (urls ++ [url]) = true.
Proof.
  unfold noted. rewrite existsb_app. intros ->. reflexivity.
Qed.

Lemma noted_last url urls :
  hashable url = true -> noted url (urls ++ [url]) = true.
Proof.
  intros H. unfold noted. rewrite existsb_app. cbn [existsb].
  rewrite (eqb_hashable url H), orb_true_r. reflexivity.
Qed.

Lemma fetched_product_urls url (s : run_state St) :
  product_urls (fetched collect_product url s) = (product_urls s ++ [url])%list.
Proof.
  unfold fetched. destruct (collect_product url (world s)) as [r w]. reflexivity.
Qed.

(** On a well-formed grid the product loop does not raise, forgets no url,
    and, unless the limit is reached, has noted every url that the grid
    lists. *)
Lemma product_loop_complete products : forall s : run_state St,
  well_formed products ->
  fst (product_loop products s) = Ok tt
  /\ (forall u, noted u (product_urls s) = true ->
       noted u (product_urls (snd (product_loop products s))) = true)
  /\ (reached (snd (product_loop products s)) = true
      \/ forall url, lists products url ->
         noted url (product_urls (snd (product_loop products s))) = true).
Proof.
  induction products as [|product_data rest IH]; intros s Hwf.
  - split; [reflexivity|]. split; [auto|]. right.
    intros url (p & [] & _).
  - inversion Hwf as [|? ? (url & Hurl & Hh) Hrest]; subst.
    rewrite product_loop_cons.
    destruct (reached s) eqn:Hl; [cbn [fst snd]; auto|].
    rewrite Hurl.
    assert (Hlisted : forall s' : run_state St,
              (truthy url = true -> noted url (product_urls s') = true) ->
              (forall url', lists rest url' ->
                 noted url' (product_urls s') = true) ->
              forall url', lists (product_data :: rest) url' ->
                noted url' (product_urls s') = true).
    { intros s' Hfirst Hothers url' (p & [<-|Hin] & Hp & Ht).
      - rewrite Hurl in Hp. injection Hp as <-. exact (Hfirst Ht).
      - apply Hothers. exists p. auto. }
    destruct (truthy url) eqn:Ht; cbn [negb].
    + destruct Hh as [Hh|Hh]; [discriminate|].
      unfold set_mem. rewrite Hh.
      destruct (existsb (Py.eqb url) (product_urls s)) eqn:Hm.
      * destruct (IH s Hrest) as (Hok & Hmono & Hall).
        split; [exact Hok|]. split; [exact Hmono|].
        destruct Hall as [Hall|Hall]; [left; exact Hall|right].
        apply Hlisted; [|exact Hall]. intros _. apply Hmono. exact Hm.
      * destruct (IH (fetched collect_product url s) Hrest)
          as (Hok & Hmono & Hall).
        split; [exact Hok|]. split.
        { intros u Hu. apply Hmono. rewrite fetched_product_urls.
          apply noted_later, Hu. }
        destruct Hall as [Hall|Hall]; [left; exact Hall|right].
        apply Hlisted; [|exact Hall]. intros _. apply Hmono.
        rewrite fetched_product_urls. apply noted_last, Hh.
    + destruct (IH s Hrest) as (Hok & Hmono & Hall).
      split; [exact Hok|]. split; [exact Hmono|].
      destruct Hall as [Hall|Hall]; [left; exact Hall|right].
      apply Hlisted; [|exact Hall]. discriminate.
Qed.

Lemma category_loop_break categories (s : run_state St) :
  reached s = true -> category_loop categories s = (Ok tt, s).
Proof.
  intros H. destruct categories as [|category rest]; [reflexivity|].
  rewrite category_loop_cons, H. reflexivity.
Qed.

(** When every grid answers with a well-formed list, the run forgets no
    url and, unless the limit is reached, has noted every url that the
    grids list. *)
Lemma category_loop_complete (grid : Z -> list json) categories :
  forall s : run_state St,
  (forall category, In category categories ->
     forall w, exists response w',
       get_paginated_products category w = (Ok response, w')
       /\ grid_products response = Ok (grid category)) ->
  (forall category, In category categories -> well_formed (grid category)) ->
  (forall u, noted u (product_urls s) = true ->
     noted u (product_urls (snd (category_loop categories s))) = true)
  /\ (reached (snd (category_loop categories s)) = true
      \/ forall category url,
           In category categories -> lists (grid category) url ->
           noted url (product_urls (snd (category_loop categories s))) = true).
Proof.
  induction categories as [|category rest IH]; intros s Hg Hwf.
  - split; [auto|]. right. intros category url [].
  - rewrite category_loop_cons.
    destruct (reached s) eqn:Hl; [cbn [snd]; auto|].
    rewrite collect_category_run.
    destruct (Hg category (or_introl eq_refl) (world s))
      as (response & w' & -> & ->).
    destruct (product_loop_complete (grid category) (with_world w' s)
                (Hwf category (or_introl eq_refl))) as (_ & Hmono & Hall).
    set (s1 := snd (product_loop (grid category) (with_world w' s))) in *.
    destruct (IH s1 (fun c Hc => Hg c (or_intror Hc))
                (fun c Hc => Hwf c (or_intror Hc))) as (Hmono' & Hall').
    split; [intros u Hu; apply Hmono', Hmono, Hu|].
    destruct Hall as [Hall|Hall].
    + left. rewrite (category_loop_break rest s1 Hall). exact Hall.
    + destruct Hall' as [Hall'|Hall']; [left; exact Hall'|right].
      intros c url [<-|Hc] Hlist; [apply Hmono', Hall, Hlist|].
      exact (Hall' c url Hc Hlist).
Qed.

(** The urls noted by a run are truthy and hashable. *)
Lemma category_loop_urls categories (s : run_state St) :
  Forall (fun url => truthy url = true /\ hashable url = true) (product_urls s) ->
  Forall (fun url => truthy url = true /\ hashable url = true)
    (product_urls (snd (category_loop categories s))).
Proof.
  apply (category_loop_invariant get_paginated_products collect_product limit
           (fun s => Forall (fun url => truthy url = true /\ hashable url = true)
                       (product_urls s))).
  - intros category s0 H _. exact H.
  - intros url s0 H _ Ht Hm. rewrite fetched_product_urls.
    apply Forall_app. split; [exact H|]. constructor; [|constructor].
    split; [exact Ht|]. unfold set_mem in Hm.
    destruct (hashable url); [reflexivity|discriminate].
Qed.

End RunExtras.

Section TraceExtras.

Import Run RunSpec GridSpec Trace.

Context {St : Type}.
Variable get_paginated_products : Z -> M St json.
Variable collect_product : json -> M St (option string).

(** X13. [collect_product] is only ever called with a url that is truthy
    and hashable: an entry without a url, or with [null] or [""] for it,
    is passed over, whatever the grids answer and whatever the limit. *)
Theorem only_real_urls_are_fetched categories limit (w : St) :
  Forall (fun url => truthy url = true /\ hashable url = true)
    (fetched_urls
       (snd (snd (Trace.collect_products get_paginated_products collect_product
                    categories limit w)))).
Proof.
  unfold Trace.collect_products, Run.collect_products.
  set (cats := match categories with Some l => l | None => default_categories end).
  pose proof (category_loop_invariant (traced_grid get_paginated_products)
                (traced_detail collect_product) limit (observed limit)
                (observed_grid get_paginated_products limit)
                (observed_fetched collect_product limit) cats
                (mk [] [] (w, []))) as Hi.
  pose proof (category_loop_urls (traced_grid get_paginated_products)
                (traced_detail collect_product) limit cats
                (mk [] [] (w, [])) (List.Forall_nil _)) as Hu.
  destruct (category_loop _ _ limit cats (mk [] [] (w, []))) as [r s].
  cbn [snd] in *.
  destruct Hi as (Hurls & _).
  { repeat split. intros t1 e t2 H. destruct t1; discriminate. }
  rewrite <- Hurls. exact Hu.
Qed.

(** X14. No listed product is lost. When the grid of every category
    answers with a well-formed list of entries, a run either ends with the
    limit reached, or has called [collect_product] with every truthy url
    that the grids of its categories list. *)
Theorem every_listed_product_is_fetched
    (grid : Z -> list json) categories limit (w : St) :
  (forall category, In category categories ->
     forall w, exists response w',
       get_paginated_products category w = (Ok response, w')
       /\ grid_products response = Ok (grid category)) ->
  (forall category, In category categories -> well_formed (grid category)) ->
  exists uids trace w',
    Trace.collect_products get_paginated_products collect_product
      (Some categories) limit w = (Ok uids, (w', trace))
    /\ (limit_reached limit (length uids) = true
        \/ forall category url,
             In category categories -> lists (grid category) url ->
             noted url (fetched_urls trace) = true).
Proof.
  intros Hg Hwf.
  unfold Trace.collect_products, Run.collect_products.
  pose proof (category_loop_returns (traced_grid get_paginated_products)
                (traced_detail collect_product) limit categories
                (mk [] [] (w, []))) as Hr.
  pose proof (category_loop_invariant (traced_grid get_paginated_products)
                (traced_detail collect_product) limit (observed limit)
                (observed_grid get_paginated_products limit)
                (observed_fetched collect_product limit) categories
                (mk [] [] (w, []))) as Hi.
  destruct (category_loop_complete (traced_grid get_paginated_products)
              (traced_detail collect_product) limit grid categories
              (mk [] [] (w, []))) as (_ & Hall).
  { intros category Hc [w0 t]. unfold traced_grid. cbn [fst snd].
    destruct (Hg category Hc w0) as (response & w' & -> & Hresp).
    eauto. }
  { exact Hwf. }
  destruct (category_loop _ _ limit categories (mk [] [] (w, []))) as [r s].
  cbn [fst snd] in *. subst r.
  destruct Hi as (Hurls & _).
  { repeat split. intros t1 e t2 H. destruct t1; discriminate. }
  destruct s as [uids urls [w' trace]]. cbn [collected_uids product_urls world snd] in *.
  exists uids, trace, w'. split; [reflexivity|].
  rewrite <- Hurls. exact Hall.
Qed.

End TraceExtras.

Lemma failing_category_is_skipped_witness :
  Run.category_loop
    (ProductCollector.grid_of (fun _ => GraphQL.NoResponse)
       Scenario.GRID_QUERY Scenario.region Scenario.locale)
    (Scenario.collect_product [] []) None [5; 6]
    (Run.mk [] [] (clean Scenario.stored))
  = Run.category_loop
      (ProductCollector.grid_of (fun _ => GraphQL.NoResponse)
         Scenario.GRID_QUERY Scenario.region Scenario.locale)
      (Scenario.collect_product [] []) None [6]
      (RunSpec.with_world (clean Scenario.stored)
         (Run.mk [] [] (clean Scenario.stored))).
Proof.
  eapply (failing_category_is_skipped
            (ProductCollector.grid_of (fun _ => GraphQL.NoResponse)
               Scenario.GRID_QUERY Scenario.region Scenario.locale)
            (Scenario.collect_product [] []) None 5 [6]
            (Run.mk [] [] (clean Scenario.stored)));
    reflexivity.
Defined.

Lemma malformed_entry_ends_its_category_witness :
  Run.category_loop (St := unit) (fun _ => ret Samples.broken_grid)
    (fun _ => ret (Some "uid-a")) None [1; 2] (Run.mk [] [] tt)
  = Run.category_loop (fun _ => ret Samples.broken_grid)
      (fun _ => ret (Some "uid-a")) None [2]
      (snd (Run.product_loop (fun _ => ret (Some "uid-a")) None
              [JObj [("url", JStr "/ski-a")]]
              (RunSpec.with_world tt (Run.mk [] [] tt)))).
Proof.
  apply (malformed_entry_ends_its_category (St := unit)
           (fun _ => ret Samples.broken_grid) (fun _ => ret (Some "uid-a")) None
           1 [2] (Run.mk [] [] tt) Samples.broken_grid tt
           [JObj [("url", JStr "/ski-a")]] JNull
           [JObj [("url", JStr "/ski-b")]]);
    [reflexivity|reflexivity|reflexivity|].
  left. exists AttributeError. reflexivity.
Defined.

Lemma every_listed_product_is_fetched_witness :
  exists uids trace w',
    Scenario.traced_collect_products [(5, ["/ski-x"; "/ski-y"])]
      [("/ski-x", JObj Scenario.ski_x_update); ("/ski-y", Scenario.ski_y)]
      (Some [5]) None (clean Scenario.stored) = (Ok uids, (w', trace))
    /\ (Run.limit_reached None (length uids) = true
        \/ forall category url,
             In category [5] ->
             GridSpec.lists (Samples.catalog_grid category) url ->
             GridSpec.noted url (Trace.fetched_urls trace) = true).
Proof.
  apply (every_listed_product_is_fetched
           (ProductCollector.grid_of
              (Scenario.server [(5, ["/ski-x"; "/ski-y"])]
                 [("/ski-x", JObj Scenario.ski_x_update);
                  ("/ski-y", Scenario.ski_y)])
              Scenario.GRID_QUERY Scenario.region Scenario.locale)
           (Upsert.collect_product
              (Scenario.server [(5, ["/ski-x"; "/ski-y"])]
                 [("/ski-x", JObj Scenario.ski_x_update);
                  ("/ski-y", Scenario.ski_y)])
              Scenario.PRODUCT_QUERY Scenario.region Scenario.locale)
           Samples.catalog_grid [5] None (clean Scenario.stored)).
  - intros category [<-|[]] w. eexists. exists w. split; reflexivity.
  - intros category [<-|[]].
    repeat constructor; eexists; (split; [reflexivity|right; reflexivity]).
Defined.

(** ** HTML stripping, once more *)

Section HtmlExtras.

Import HtmlSpec.

Lemma space_not_gt c : is_space c = true -> Ascii.eqb c ">" = false.
Proof.
  intros H. destruct (Ascii.eqb_spec c ">") as [->|]; [discriminate|reflexivity].
Qed.

Lemma space_not_lt c : is_space c = true -> Ascii.eqb c "<" = false.
Proof.
  intros H. destruct (Ascii.eqb_spec c "<") as [->|]; [discriminate|reflexivity].
Qed.

Lemma not_space_not_LF c : is_space c = false -> Ascii.eqb c LF = false.
Proof.
  intros H. destruct (Ascii.eqb_spec c LF) as [->|]; [discriminate|reflexivity].
Qed.

(** After the whitespace pass there is no line feed left. *)
Lemma sub_spaces_line_free s : forall b, line_free (sub_spaces b s) = true.
Proof.
  induction s as [|c r IH]; intros b; simpl; [reflexivity|].
  destruct (is_space c) eqn:Hc.
  - destruct b; [apply IH|]. simpl. apply IH.
  - simpl. rewrite (not_space_not_LF c Hc). apply IH.
Qed.

Lemma lstrip_line_free t : line_free t = true -> line_free (lstrip t) = true.
Proof.
  induction t as [|c r IH]; simpl; [reflexivity|].
  intros H. destruct (is_space c); [|exact H].
  apply andb_true_iff in H as [_ H]. exact (IH H).
Qed.

Lemma rstrip_line_free t : line_free t = true -> line_free (rstrip t) = true.
Proof.
  induction t as [|c r IH]; simpl; [reflexivity|].
  intros H. apply andb_true_iff in H as [Hc Hr]. specialize (IH Hr).
  revert IH. destruct (rstrip r) as [|c' r']; intros IH.
  - destruct (is_space c); simpl; [reflexivity|]. rewrite Hc. reflexivity.
  - change (line_free (String c (String c' r')))
      with (negb (Ascii.eqb c LF) && line_free (String c' r')).
    rewrite Hc, IH. reflexivity.
Qed.

Lemma sub_tags_line_free_kept s : forall skip,
  line_free s = true -> line_free (sub_tags skip s) = true.
Proof.
  induction s as [|c r IH]; intros skip; simpl; [reflexivity|].
  intros H. apply andb_true_iff in H as [Hc Hr].
  destruct skip as [|k]; [|apply IH, Hr].
  destruct (Ascii.eqb c "<").
  - destruct (tag_len r); [apply IH, Hr|]. simpl. rewrite Hc. apply IH, Hr.
  - simpl. rewrite Hc. apply IH, Hr.
Qed.

(** On a text without line feeds, a ["<"] opens no tag when no [">"]
    follows it; the two later passes bring no [">"]. *)
Lemma tag_len_sub_spaces r :
  line_free r = true -> tag_len r = None ->
  forall b, tag_len (sub_spaces b r) = None.
Proof.
  induction r as [|c r IH]; simpl; [reflexivity|].
  intros Hlf Hn b. apply andb_true_iff in Hlf as [Hc Hr].
  apply negb_true_iff in Hc.
  destruct (Ascii.eqb c ">") eqn:Hgt; [discriminate|].
  rewrite Hc in Hn.
  assert (Hn' : tag_len r = None) by (destruct (tag_len r); [discriminate|reflexivity]).
  destruct (is_space c) eqn:Hsp.
  - destruct b; [apply IH; assumption|].
    simpl. rewrite (IH Hr Hn' true). reflexivity.
  - simpl. rewrite Hgt, Hc, (IH Hr Hn' false). reflexivity.
Qed.

Lemma tagless_sub_spaces t :
  line_free t = true -> tagless t -> forall b, tagless (sub_spaces b t).
Proof.
  induction t as [|c r IH]; simpl; [intros _ _ _; exact I|].
  intros Hlf [Hc Hr] b. apply andb_true_iff in Hlf as [_ Hlf].
  destruct (is_space c) eqn:Hsp.
  - destruct b; [apply IH; assumption|]. simpl.
    split; [discriminate|apply IH; assumption].
  - simpl. split; [|apply IH; assumption].
    intros E. apply tag_len_sub_spaces; [exact Hlf|exact (Hc E)].
Qed.

Lemma tagless_lstrip t : tagless t -> tagless (lstrip t).
Proof.
  induction t as [|c r IH]; simpl; [exact id|].
  intros [Hc Hr]. destruct (is_space c); [exact (IH Hr)|].
  simpl. split; assumption.
Qed.

Lemma tag_len_rstrip r :
  line_free r = true -> tag_len r = None -> tag_len (rstrip r) = None.
Proof.
  induction r as [|c r IH]; simpl; [reflexivity|].
  intros Hlf Hn. apply andb_true_iff in Hlf as [Hc Hr].
  apply negb_true_iff in Hc.
  destruct (Ascii.eqb c ">") eqn:Hgt; [discriminate|].
  rewrite Hc in Hn.
  assert (Hn' : tag_len r = None) by (destruct (tag_len r); [discriminate|reflexivity]).
  specialize (IH Hr Hn'). revert IH.
  destruct (rstrip r) as [|c' r']; intros IH.
  - destruct (is_space c); simpl; [reflexivity|]. rewrite Hgt, Hc. reflexivity.
  - change (tag_len (String c (String c' r')))
      with (if Ascii.eqb c ">" then Some 1%nat
            else if Ascii.eqb c LF then None
                 else option_map S (tag_len (String c' r'))).
    rewrite Hgt, Hc, IH. reflexivity.
Qed.

Lemma tagless_rstrip t :
  line_free t = true -> tagless t -> tagless (rstrip t).
Proof.
  induction t as [|c r IH]; simpl; [intros _ _; exact I|].
  intros Hlf [Hc Hr]. apply andb_true_iff in Hlf as [_ Hlf].
  pose proof (tag_len_rstrip r Hlf) as Hlen.
  specialize (IH Hlf Hr). revert IH Hlen.
  destruct (rstrip r) as [|c' r']; intros IH Hlen.
  - destruct (is_space c); simpl; [exact I|]. split; [reflexivity|exact I].
  - change (tagless (String c (String c' r')))
      with ((c = "<"%char -> tag_len (String c' r') = None)
            /\ tagless (String c' r')).
    split; [|exact IH]. intros E. exact (Hlen (Hc E)).
Qed.

Lemma sub_tags_tagless_fixed t : tagless t -> sub_tags 0 t = t.
Proof.
  induction t as [|c r IH]; simpl; [reflexivity|].
  intros [Hc Hr]. rewrite (IH Hr).
  destruct (Ascii.eqb_spec c "<") as [E|_]; [|reflexivity].
  rewrite (Hc E). reflexivity.
Qed.

(** A stripped text in which no ["<"] opens a tag is stripped to itself. *)
Lemma clean_str_tagless_fixed t :
  normalized t = true -> tagless t -> clean_str t = t.
Proof.
  unfold normalized, clean_str, strip. intros H Ht.
  apply andb_true_iff in H as [H1 H2].
  rewrite (sub_tags_tagless_fixed t Ht).
  rewrite (sub_spaces_fixed t false (single_spaced_weaken t H1)).
  rewrite (lstrip_fixed t H1). apply rstrip_fixed, H2.
Qed.

Lemma clean_str_tagless s : line_free s = true -> tagless (clean_str s).
Proof.
  intros H. unfold clean_str, strip.
  apply tagless_rstrip; [apply lstrip_line_free, sub_spaces_line_free|].
  apply tagless_lstrip, tagless_sub_spaces;
    [apply sub_tags_line_free_kept, H|apply sub_tags_tagless].
Qed.

Lemma clean_str_line_free s : line_free (clean_str s) = true.
Proof.
  unfold clean_str, strip.
  apply rstrip_line_free, lstrip_line_free, sub_spaces_line_free.
Qed.

Lemma clean_html_of_str t : _clean_html (JStr t) = Ok (clean_str t).
Proof. destruct t; reflexivity. Qed.

(** X15. Stripping is stable on one line. The result of [_clean_html] on
    a string without line feeds is stripped to itself; the result on any
    argument has no line feed, so that two passes always reach a text that
    a further pass leaves alone. *)
Theorem clean_html_is_stable (html : json) (t : string) :
  _clean_html html = Ok t ->
  (match html with
   | JStr s => line_free s = true -> _clean_html (JStr t) = Ok t
   | _ => _clean_html (JStr t) = Ok t
   end)
  /\ line_free t = true
  /\ exists t', _clean_html (JStr t) = Ok t' /\ _clean_html (JStr t') = Ok t'.
Proof.
  intros H.
  assert (Ht : line_free t = true).
  { unfold _clean_html in H. destruct (negb (truthy html));
      [injection H as <-; reflexivity|].
    destruct html; try discriminate. injection H as <-.
    apply clean_str_line_free. }
  assert (Hfix : forall s, line_free s = true ->
                   _clean_html (JStr (clean_str s)) = Ok (clean_str s)).
  { intros s Hs. rewrite clean_html_of_str. f_equal.
    apply clean_str_tagless_fixed;
      [apply clean_str_normalized|apply clean_str_tagless, Hs]. }
  split; [|split; [exact Ht|]].
  - unfold _clean_html in H.
    destruct html as [|b|n|s|l|kvs];
      try (destruct (negb (truthy _)); [injection H as <-; reflexivity|discriminate]).
    intros Hs.
    destruct (negb (truthy (JStr s))); [injection H as <-; reflexivity|].
    injection H as <-. apply Hfix, Hs.
  - exists (clean_str t). split; [apply clean_html_of_str|apply Hfix, Ht].
Qed.

End HtmlExtras.

Lemma clean_html_is_stable_witness :
  _clean_html (JStr "Carbon Power Wrap") = Ok "Carbon Power Wrap"
  /\ HtmlSpec.line_free "Carbon Power Wrap" = true.
Proof.
  destruct (clean_html_is_stable (JStr "<p>Carbon  <b>Power</b> Wrap</p> ")
              "Carbon Power Wrap" eq_refl) as (H1 & H2 & _).
  split; [apply H1; reflexivity|exact H2].
Defined.

(** ** The formatter *)

Section FormatterExtras.

Import Formatter FormatterSpec.

Example test_format_features :
  _format_features Samples.features
  = Some ("Test Feature Group 1: Test feature content 1, Test feature content 2"
          ++ " | General: Light, Stable"
          ++ " | Test Feature Group 2: Test feature content 3").
Proof. reflexivity. Qed.

Example test_format_specs : _format_specs Samples.specs = Some "Width: 44mm".
Proof. reflexivity. Qed.















End FormatterExtras.
